(** * Aadhaar card field extraction: a shallow embedding of [fastapi_app.py]

    The development follows the Python source function by function:
    [validate_aadhaar_number], [extract_aadhaar_info] (with its pattern
    table) and the request handler [extract_aadhaar_data].  Python's [str]
    is a sequence of Unicode code points, its [re] module is a backtracking
    matcher, and the handler talks to PIL and tesseract; each of these is
    modelled below before the program itself. *)

From stdpp Require Import gmap strings list.
From Stdlib Require Import NArith ZArith Ascii String Lia.
From stdpp Require pretty.

Open Scope N_scope.

(** ** Python strings *)

(** A character is a code point; a [str] is a list of them. *)
Definition char := N.
Abbreviation str := (list N).

(** Source text of this file is UTF-8: [py] decodes a literal into code
    points, so that patterns and inputs can be written as they stand in
    the Python file. *)
Definition utf8_cont (b : N) : N := N.land b 63.

Fixpoint utf8_decode (fuel : nat) (bs : list N) : str :=
  match fuel with
  | O => []
  | S fuel =>
    match bs with
    | [] => []
    | b0 :: r0 =>
      if b0 <? 128 then b0 :: utf8_decode fuel r0
      else match r0 with
      | [] => []
      | b1 :: r1 =>
        if b0 <? 224 then (N.land b0 31 * 64 + utf8_cont b1) :: utf8_decode fuel r1
        else match r1 with
        | [] => []
        | b2 :: r2 =>
          if b0 <? 240
          then ((N.land b0 15 * 64 + utf8_cont b1) * 64 + utf8_cont b2) :: utf8_decode fuel r2
          else match r2 with
          | [] => []
          | b3 :: r3 =>
            (((N.land b0 7 * 64 + utf8_cont b1) * 64 + utf8_cont b2) * 64 + utf8_cont b3)
              :: utf8_decode fuel r3
          end
        end
      end
    end
  end.

Definition py (s : string) : str :=
  let bs := map N_of_ascii (list_ascii_of_string s) in
  utf8_decode (List.length bs) bs.

(** ** The Unicode character database

    [re] and [str.strip] consult CPython's character database.  The ASCII
    block and the Devanagari block (the two scripts of the card) are written
    out; every other block is taken from a table given as a parameter, so
    that nothing below depends on how the remaining code points are
    classified. *)
Class UnicodeData := {
  ud_isspace : char → bool;     (* Py_UNICODE_ISSPACE *)
  ud_isdecimal : char → bool;   (* Py_UNICODE_ISDECIMAL *)
  ud_isalnum : char → bool;     (* Py_UNICODE_ISALNUM *)
  ud_tolower : char → char;     (* Py_UNICODE_TOLOWER *)
  ud_toupper : char → char      (* Py_UNICODE_TOUPPER *)
}.

Definition between (lo hi c : char) : bool := (lo <=? c) && (c <=? hi).
Definition is_ascii (c : char) : bool := c <? 128.
Definition is_devanagari (c : char) : bool := between 0x900 0x97F c.

(** Letters of the Devanagari block (general categories Lo and Lm); the
    dependent vowel signs, virama and other marks are not alphanumeric. *)
Definition devanagari_letter (c : char) : bool :=
  between 0x904 0x939 c || (c =? 0x93D) || (c =? 0x950)
  || between 0x958 0x961 c || between 0x971 0x97F c.
Definition devanagari_digit (c : char) : bool := between 0x966 0x96F c.

Section Unicode.
Context `{UnicodeData}.

Definition isspace (c : char) : bool :=
  if is_ascii c then between 9 13 c || between 28 32 c
  else if is_devanagari c then false
  else ud_isspace c.

Definition isdecimal (c : char) : bool :=
  if is_ascii c then between 48 57 c
  else if is_devanagari c then devanagari_digit c
  else ud_isdecimal c.

Definition isalnum (c : char) : bool :=
  if is_ascii c then between 48 57 c || between 65 90 c || between 97 122 c
  else if is_devanagari c then devanagari_letter c || devanagari_digit c
  else ud_isalnum c.

Definition tolower (c : char) : char :=
  if is_ascii c then (if between 65 90 c then c + 32 else c)
  else if is_devanagari c then c
  else ud_tolower c.

Definition toupper (c : char) : char :=
  if is_ascii c then (if between 97 122 c then c - 32 else c)
  else if is_devanagari c then c
  else ud_toupper c.

(** [_sre.unicode_iscased] *)
Definition iscased (c : char) : bool :=
  negb (c =? tolower c) || negb (c =? toupper c).

(** [\w] is an alphanumeric character or the underscore. *)
Definition isword (c : char) : bool := isalnum c || (c =? 95).

(** *** [str] methods used by the program *)

(** [s.replace(" ", "")] *)
Definition replace_spaces (s : str) : str :=
  List.filter (λ c, negb (c =? 32)) s.

Fixpoint lstrip (s : str) : str :=
  match s with
  | [] => []
  | c :: tl => if isspace c then lstrip tl else s
  end.
Definition rstrip (s : str) : str := rev (lstrip (rev s)).
(** [s.strip()] *)
Definition strip (s : str) : str := rstrip (lstrip s).
End Unicode.

(** ** Regular expressions

    The fragment of [re] syntax the four patterns and the validator use.
    Every repetition in them is over a single character, so [Rep] carries
    an atom. *)
Inductive citem :=
| CChar (c : char)             (* a member written as itself *)
| CRange (lo hi : char)        (* lo-hi *)
| CSpace                       (* \s *)
| CDigit.                      (* \d *)

Inductive atom :=
| ALit (c : char)              (* a literal character *)
| AIn (items : list citem).    (* [...]; \s and \d alone are one-item sets *)

Inductive re :=
| Empty
| Atom (a : atom)
| Rep (lazy : bool) (lo : nat) (hi : option nat) (a : atom)
| Seq (r1 r2 : re)
| Alt (r1 r2 : re)
| Group (r : re)               (* capturing group 1 *)
| Look (r : re)                (* (?=...) *)
| Bound                        (* \b *)
| Bol                          (* ^ *)
| Eol.                         (* $ *)

Record flags := Flags { IGNORECASE : bool; MULTILINE : bool }.

(** A position in the subject: the character before it, the text from it
    on, and what group 1 holds so far. *)
Record cursor := Cursor { prev : option char; rest : str; grp : option str }.

(** A match object: where the match starts, [group(0)] and [group(1)]. *)
Record match_obj := Match { m_start : nat; group0 : str; group1 : option str }.

Definition crange (lo hi : char) : list char :=
  map (λ k, lo + N.of_nat k) (seq 0 (N.to_nat (hi + 1 - lo))).

(** [sre_compile._equivalences], restricted to the entries whose key is an
    ASCII letter: lower-case characters that share an upper case with the
    key.  The other entries are keyed by non-ASCII letters, and a key here is
    always the lower case of a character of a pattern. *)
Definition fixes (lo : char) : list char :=
  if lo =? 0x69 then [0x131] else if lo =? 0x73 then [0x17F] else [].

(** [x] is the folded character [lo] or one of its equivalents. *)
Definition folded_eq (lo x : char) : bool :=
  (x =? lo) || existsb (N.eqb x) (fixes lo).

Section Matcher.
Context `{UnicodeData}.
Variable fl : flags.

Definition item_cased (i : citem) : bool :=
  match i with
  | CChar c => iscased c
  | CRange lo hi => existsb iscased (crange lo hi)
  | CSpace | CDigit => false
  end.

(** Membership as [sre] tests it without case folding. *)
Definition item_match (x : char) (i : citem) : bool :=
  match i with
  | CChar c => x =? c
  | CRange lo hi => between lo hi x
  | CSpace => isspace x
  | CDigit => isdecimal x
  end.

(** Membership in the set [_optimize_charset] builds under IGNORECASE:
    the members lower-cased, with their equivalents; categories stay. *)
Definition item_match_folded (x : char) (i : citem) : bool :=
  match i with
  | CChar c => folded_eq (tolower c) x
  | CRange lo hi => existsb (λ c, folded_eq (tolower c) x) (crange lo hi)
  | CSpace => isspace x
  | CDigit => isdecimal x
  end.

(** One character against an atom.  Under IGNORECASE a cased literal, or a
    set with a cased member, is compared with the lower case of the
    subject character; everything else is compared as it is. *)
Definition atom_match (a : atom) (ch : char) : bool :=
  match a with
  | ALit c =>
      if IGNORECASE fl && iscased c then folded_eq (tolower c) (tolower ch)
      else ch =? c
  | AIn items =>
      if IGNORECASE fl && existsb item_cased items
      then existsb (item_match_folded (tolower ch)) items
      else existsb (item_match ch) items
  end.

Definition at_boundary (c : cursor) : bool :=
  let thatp := match prev c with Some x => isword x | None => false end in
  let thisp := match rest c with x :: _ => isword x | [] => false end in
  xorb thisp thatp.

Definition at_bol (c : cursor) : bool :=
  match prev c with
  | None => true
  | Some x => MULTILINE fl && (x =? 10)
  end.

Definition at_eol (c : cursor) : bool :=
  match rest c with
  | [] => true
  | x :: tl =>
      (x =? 10) && (MULTILINE fl || match tl with [] => true | _ => false end)
  end.

(** The positions after 0, 1, 2, ... characters that satisfy [p]. *)
Fixpoint spans (p : char → bool) (pv : option char) (s : str) (g : option str)
  : list cursor :=
  Cursor pv s g ::
  match s with
  | [] => []
  | x :: tl => if p x then spans p (Some x) tl g else []
  end.

Definition upto (hi : option nat) (lo : nat) (l : list cursor) : list cursor :=
  match hi with
  | Some h => take (S h - lo) l
  | None => l
  end.

(** The text between two cursors of one subject. *)
Definition consumed (from : str) (to : cursor) : str :=
  take (List.length from - List.length (rest to)) from.

(** All ways [r] matches at [c], in the order backtracking tries them;
    the head is the match [sre] reports. *)
Fixpoint mt (r : re) (c : cursor) : list cursor :=
  match r with
  | Empty => [c]
  | Atom a =>
      match rest c with
      | x :: tl => if atom_match a x then [Cursor (Some x) tl (grp c)] else []
      | [] => []
      end
  | Rep lazy lo hi a =>
      let ends := upto hi lo (drop lo (spans (atom_match a) (prev c) (rest c) (grp c))) in
      if lazy then ends else rev ends
  | Seq r1 r2 => flat_map (mt r2) (mt r1 c)
  | Alt r1 r2 => mt r1 c ++ mt r2 c
  | Group r1 =>
      map (λ c', Cursor (prev c') (rest c') (Some (consumed (rest c) c'))) (mt r1 c)
  | Look r1 =>
      match mt r1 c with
      | c' :: _ => [Cursor (prev c) (rest c) (grp c')]
      | [] => []
      end
  | Bound => if at_boundary c then [c] else []
  | Bol => if at_bol c then [c] else []
  | Eol => if at_eol c then [c] else []
  end.

Definition match_at (r : re) (start : nat) (pv : option char) (s : str)
  : option match_obj :=
  match mt r (Cursor pv s None) with
  | c' :: _ => Some (Match start (consumed s c') (grp c'))
  | [] => None
  end.

(** [re.search]: the first start position, left to right, with a match. *)
Fixpoint search_from (r : re) (start : nat) (pv : option char) (s : str)
  : option match_obj :=
  match match_at r start pv s with
  | Some m => Some m
  | None =>
      match s with
      | [] => None
      | x :: tl => search_from r (S start) (Some x) tl
      end
  end.
End Matcher.

(** [re.search(pattern, text, flags)], and [re.match(pattern, text)], which
    tries the start of the text only. *)
Definition re_search `{UnicodeData} (pattern : re) (text : str) (fl : flags)
  : option match_obj := search_from fl pattern 0 None text.

Definition re_match `{UnicodeData} (pattern : re) (text : str) : option match_obj :=
  match_at (Flags false false) pattern 0 None text.

(** *** Pattern syntax *)
Definition lit (s : string) : re :=
  foldr (λ c r, Seq (Atom (ALit c)) r) Empty (py s).
Definition seqs (rs : list re) : re := foldr Seq Empty rs.
Fixpoint alts (rs : list re) : re :=
  match rs with
  | [] => Empty
  | [r] => r
  | r :: tl => Alt r (alts tl)
  end.
Definition chr (s : string) : char := hd 0 (py s).
Definition set (items : list citem) : re := Atom (AIn items).
Definition star (a : atom) : re := Rep false 0 None a.          (* a*  *)
Definition opt (a : atom) : re := Rep false 0 (Some 1%nat) a.   (* a?  *)
Definition plus_lazy (a : atom) : re := Rep true 1 None a.      (* a+? *)
Definition times (n : nat) (a : atom) : re := Rep false n (Some n) a.  (* a{n} *)
Definition space : atom := AIn [CSpace].                        (* \s *)
Definition digit : atom := AIn [CDigit].                        (* \d *)

(** ** The program: [fastapi_app.py] *)

(** A Python dictionary from field names to [None] or a string. *)
Abbreviation dict := (gmap string (option str)).

(** What the handler does to the outside world, in order: reading the
    upload, the PIL and tesseract calls, and log records. *)
Inductive event :=
| FileRead
| ImageOpen
| Convert (mode : string)
| ContrastEnhance (factor : Z)
| ImageToString (lang config : string)
| Log (level msg : string).

Record exn := Exception { str_e : string }.

Inductive result (A : Type) :=
| Ok (a : A)
| Raise (e : exn).
Arguments Ok {A} a.
Arguments Raise {A} e.

(** A computation returns or raises, and leaves a trace of events. *)
Definition M (A : Type) : Type := result A * list event.

Definition ret {A} (a : A) : M A := (Ok a, []).
Definition raise {A} (e : exn) : M A := (Raise e, []).
Definition bind {A B} (m : M A) (f : A → M B) : M B :=
  match m with
  | (Ok a, t) => let '(r, t') := f a in (r, t ++ t')
  | (Raise e, t) => (Raise e, t)
  end.
Definition call {A} (ev : event) (r : result A) : M A := (r, [ev]).
Definition log (level msg : string) : M unit := (Ok (), [Log level msg]).
(** [try: m except Exception as e: handler e] *)
Definition try_except {A} (m : M A) (handler : exn → M A) : M A :=
  match m with
  | (Raise e, t) => let '(r, t') := handler e in (r, t ++ t')
  | ok => ok
  end.

Instance M_ret : MRet M := @ret.
Instance M_bind : MBind M := λ A B f m, bind m f.

(** PIL and tesseract: the capabilities the handler consumes. *)
Class Imaging := {
  image : Type;
  Image_open : list Byte.byte → result image;
  image_convert : image → string → result image;
  contrast_enhance : image → Z → result image;
  image_to_string : image → string → string → result str
}.

Record UploadFile := {
  filename : string;
  content_type : string;
  file_content : list Byte.byte
}.

Inductive content :=
| Success (data : dict) (message : string)
| Failure (error detail : string).

Inductive response :=
| HTTPException (status_code : Z) (detail : string)
| JSONResponse (body : content) (status_code : Z).

(** [bool(v)] for a dictionary value. *)
Definition truthy (v : option str) : bool :=
  match v with
  | Some (_ :: _) => true
  | _ => false
  end.

(** [any(d.values())] *)
Definition any_values (d : dict) : bool := existsb truthy (map_to_list d).*2.

Section Program.
Context `{UnicodeData}.

(** [if not aadhaar: return False], then the spaces are removed and the
    rest is matched against [^\d{12}$], with no flags. *)
Definition validate_aadhaar_number (aadhaar : str) : bool :=
  match aadhaar with
  | [] => false
  | _ =>
      let aadhaar := replace_spaces aadhaar in
      match re_match (seqs [Bol; times 12 digit; Eol]) aadhaar with
      | Some _ => true
      | None => false
      end
  end.

(** The pattern table, entry by entry.  Each pattern is written with the
    constructors above and normalised once, so that it can be read against
    the Python literal quoted before it. *)

(* \b[2-9]{1}[0-9]{3}\s?[0-9]{4}\s?[0-9]{4}\b *)
Definition aadhaar_pattern : re := Eval vm_compute in
  seqs [Bound;
        times 1 (AIn [CRange (chr "2") (chr "9")]);
        times 3 (AIn [CRange (chr "0") (chr "9")]);
        opt space;
        times 4 (AIn [CRange (chr "0") (chr "9")]);
        opt space;
        times 4 (AIn [CRange (chr "0") (chr "9")]);
        Bound].

(* [A-Za-z\s] *)
Definition name_chars : atom := Eval vm_compute in
  AIn [CRange (chr "A") (chr "Z"); CRange (chr "a") (chr "z"); CSpace].

(* (?:Name|नाम)\s*[:।]?\s*([A-Za-z\s]+?)
   (?=\s*(?:DOB|Year|Birth|Father|Mother|पिता|माता|जन्म|Male|Female|पुरुष|महिला)|\n|$) *)
Definition name_pattern : re := Eval vm_compute in
  seqs [alts [lit "Name"; lit "नाम"];
        star space;
        opt (AIn [CChar (chr ":"); CChar (chr "।")]);
        star space;
        Group (plus_lazy name_chars);
        Look (alts [Seq (star space)
                        (alts [lit "DOB"; lit "Year"; lit "Birth"; lit "Father";
                               lit "Mother"; lit "पिता"; lit "माता"; lit "जन्म";
                               lit "Male"; lit "Female"; lit "पुरुष"; lit "महिला"]);
                    Atom (ALit 10);
                    Eol])].

(* [/-] *)
Definition date_sep : atom := Eval vm_compute in
  AIn [CChar (chr "/"); CChar (chr "-")].

(* \b(\d{2}[/-]\d{2}[/-]\d{4})\b *)
Definition dob_pattern : re := Eval vm_compute in
  seqs [Bound;
        Group (seqs [times 2 digit; Atom date_sep; times 2 digit; Atom date_sep;
                     times 4 digit]);
        Bound].

(* \b(Male|Female|Transgender|पुरुष|महिला|किन्नर)\b *)
Definition gender_pattern : re := Eval vm_compute in
  seqs [Bound;
        Group (alts [lit "Male"; lit "Female"; lit "Transgender";
                     lit "पुरुष"; lit "महिला"; lit "किन्नर"]);
        Bound].

(** The gender transform of the table. *)
Definition gender_transform (x : str) : str :=
  if decide (x ∈ [py "Male"; py "पुरुष"]) then py "Male"
  else if decide (x ∈ [py "Female"; py "महिला"]) then py "Female"
  else py "Transgender".

Definition patterns : list (string * (re * (str → str))) :=
  [ ("aadhaar", (aadhaar_pattern, replace_spaces));
    ("name", (name_pattern, strip));
    ("dob", (dob_pattern, λ x, x));
    ("gender", (gender_pattern, gender_transform)) ]%string.

Definition search_flags : flags := Flags true true.  (* re.IGNORECASE | re.MULTILINE *)

(** One turn of the loop over [patterns.items()].  Group 1 takes part in
    every match of the three patterns that have one, so [group(1)] is never
    [None] there (see [group1_participates] below). *)
Definition extract_field (text : str) (aadhaar_info : dict)
    (entry : string * (re * (str → str))) : dict :=
  let '(key, (pattern, transform)) := entry in
  match re_search pattern text search_flags with
  | Some m =>
      let value :=
        if decide (key ≠ "aadhaar"%string) then default [] (group1 m) else group0 m in
      <[key := Some (transform value)]> aadhaar_info
  | None => aadhaar_info
  end.

Definition aadhaar_info_init : dict :=
  <["aadhaar_number" := None]> (<["name" := None]> (<["dob" := None]>
    (<["gender" := None]> ∅)))%string.

(** The dictionary after the loop, before the validation step. *)
Definition extract_fields (text : str) : dict :=
  foldl (extract_field text) aadhaar_info_init patterns.

(** The function returns the dictionary and what it logged.  Its
    [try ... except] has nothing to catch: searching a text, reading a group
    that took part and storing under a key do not raise. *)
Definition extract_aadhaar_info (text : str) : dict * list event :=
  let aadhaar_info := extract_fields text in
  match aadhaar_info !! "aadhaar_number"%string with
  | Some (Some (c :: s)) =>
      if validate_aadhaar_number (c :: s) then (aadhaar_info, [])
      else (<["aadhaar_number"%string := None]> aadhaar_info,
            [Log "WARNING" "Invalid Aadhaar number format detected"])
  | _ => (aadhaar_info, [])
  end.

Context `{Imaging}.

Definition preprocess_image (img : image) : M image :=
  try_except
    (gray_image ← call (Convert "L") (image_convert img "L");
     call (ContrastEnhance 2) (contrast_enhance gray_image 2))
    (λ e, log "ERROR" ("Error in image preprocessing: " +:+ str_e e);;
          raise (Exception "Failed to preprocess image")).

Definition max_size : Z := 5 * 1024 * 1024.
Definition allowed_types : list string := ["image/jpeg"; "image/png"; "image/jpg"]%string.

Definition process (file : UploadFile) (content : list Byte.byte) : M dict :=
  img ← call ImageOpen (Image_open content);
  processed_image ← preprocess_image img;
  text ← call (ImageToString "eng+hin" "--psm 3 --oem 3")
              (image_to_string processed_image "eng+hin" "--psm 3 --oem 3");
  match strip text with
  | [] => raise (Exception "No text detected in image")
  | _ :: _ =>
      extracted_data ← (Ok (extract_aadhaar_info text).1, (extract_aadhaar_info text).2) : M dict;
      if negb (any_values extracted_data)
      then raise (Exception "No valid information could be extracted")
      else
        log "INFO" ("Successfully processed image: " +:+ filename file);;
        ret extracted_data
  end.

Definition extract_aadhaar_data (file : UploadFile) : response * list event :=
  let content := file_content file in
  let file_size := Z.of_nat (List.length content) in
  if (file_size >? max_size)%Z
  then (HTTPException 400 "File size too large (max 5MB)", [FileRead])
  else if decide (content_type file ∉ allowed_types)
  then (HTTPException 400 "Invalid file type. Only JPEG and PNG are allowed", [FileRead])
  else
    match process file content with
    | (Ok extracted_data, t) =>
        (JSONResponse (Success extracted_data "Information extracted successfully") 200,
         FileRead :: t)
    | (Raise e, t) =>
        (JSONResponse (Failure "Failed to process image" (str_e e)) 500,
         FileRead :: t ++ [Log "ERROR" ("Error processing " +:+ filename file +:+ ": " +:+ str_e e)])
    end.
End Program.

(** ** Vocabulary for the statements *)

(** The character before a position reached by consuming [taken]. *)
Definition last_char (pv : option char) (taken : str) : option char :=
  match last taken with
  | Some x => Some x
  | None => pv
  end.

Section MatchRelation.
Context `{UnicodeData}.
Variable fl : flags.

(** What a successful run of [mt] means: [Matches r c taken c'] says that
    [r] consumes [taken] from [c] and leaves the cursor [c']. *)
Inductive Matches : re → cursor → str → cursor → Prop :=
| M_Empty c : Matches Empty c [] c
| M_Atom a c x tl :
    rest c = x :: tl → atom_match fl a x = true →
    Matches (Atom a) c [x] (Cursor (Some x) tl (grp c))
| M_Rep lazy lo hi a c taken tl :
    rest c = taken ++ tl →
    Forall (λ x, atom_match fl a x = true) taken →
    (lo ≤ List.length taken)%nat →
    (∀ h, hi = Some h → (List.length taken ≤ h)%nat) →
    Matches (Rep lazy lo hi a) c taken (Cursor (last_char (prev c) taken) tl (grp c))
| M_Seq r1 r2 c t1 c1 t2 c2 :
    Matches r1 c t1 c1 → Matches r2 c1 t2 c2 → Matches (Seq r1 r2) c (t1 ++ t2) c2
| M_Alt_l r1 r2 c t c' : Matches r1 c t c' → Matches (Alt r1 r2) c t c'
| M_Alt_r r1 r2 c t c' : Matches r2 c t c' → Matches (Alt r1 r2) c t c'
| M_Group r c t c' :
    Matches r c t c' → Matches (Group r) c t (Cursor (prev c') (rest c') (Some t))
| M_Look r c t c' :
    Matches r c t c' → Matches (Look r) c [] (Cursor (prev c) (rest c) (grp c'))
| M_Bound c : at_boundary c = true → Matches Bound c [] c
| M_Bol c : at_bol fl c = true → Matches Bol c [] c
| M_Eol c : at_eol fl c = true → Matches Eol c [] c.
End MatchRelation.

Section Shapes.
Context `{UnicodeData}.

(** Twelve characters, each a decimal digit as [\d] reads it. *)
Definition twelve_digits (s : str) : Prop :=
  List.length s = 12%nat ∧ Forall (λ d, isdecimal d = true) s.

(** Two digits, [sep1], two digits, [sep2], four digits. *)
Definition date_shape (sep1 sep2 : char) (s : str) : Prop :=
  ∃ d1 d2 d3 d4 d5 d6 d7 d8,
    s = [d1; d2; sep1; d3; d4; sep2; d5; d6; d7; d8] ∧
    Forall (λ d, isdecimal d = true) [d1; d2; d3; d4; d5; d6; d7; d8].

(** The characters [[A-Za-z\s]] matches under IGNORECASE: those whose
    lower case is an ASCII letter, dotless i or long s, or white space. *)
Definition name_class (c : char) : bool :=
  let x := tolower c in
  between 97 122 x || (x =? 0x131) || (x =? 0x17F) || isspace x.

(** What one entry of the pattern table extracts from a text. *)
Definition extracted (key : string) (pattern : re) (transform : str → str)
    (text : str) : option str :=
  match re_search pattern text search_flags with
  | Some m =>
      Some (transform (if decide (key ≠ "aadhaar"%string)
                       then default [] (group1 m) else group0 m))
  | None => None
  end.
End Shapes.

(** [s] occurs in [text] as a contiguous piece. *)
Definition occurs_in (s text : str) : Prop := ∃ pre post, text = pre ++ s ++ post.

(** An ASCII letter. *)
Definition ascii_letter (c : char) : bool := between 65 90 c || between 97 122 c.

(** ** Instances to run the model on *)

(** A character database that classifies no block besides the two written
    out above; texts in ASCII and Devanagari never reach it. *)
Definition no_other_blocks : UnicodeData :=
  {| ud_isspace := λ _, false; ud_isdecimal := λ _, false; ud_isalnum := λ _, false;
     ud_tolower := λ c, c; ud_toupper := λ c, c |}.

(** Imaging collaborators that decode and enhance anything and recognise
    the given text on every image. *)
Definition ocr_returning (text : str) : Imaging :=
  {| image := unit;
     Image_open := λ _, Ok ();
     image_convert := λ _ _, Ok ();
     contrast_enhance := λ _ _, Ok ();
     image_to_string := λ _ _ _, Ok text |}.

Definition jpeg_upload (content : list Byte.byte) : UploadFile :=
  {| filename := "card.jpg"; content_type := "image/jpeg"; file_content := content |}.

(** The line feed, to write multi-line texts. *)
Definition LF : str := [10].

(** ** Texts and tokens the statements mention *)

Definition card_text : str :=
  py "Name: Asha Kumar" ++ LF ++ py "DOB: 01/01/1990" ++ LF ++
  py "Gender: Female" ++ LF ++ py "9876 5432 1098".

Definition gender_vocabulary : list str :=
  [py "Male"; py "Female"; py "Transgender"; py "पुरुष"; py "महिला"; py "किन्नर"].
Definition gender_values : list str := [py "Male"; py "Female"; py "Transgender"].
(** The four tokens the gender transform tells apart from the rest. *)
Definition gender_literals : list str := [py "Male"; py "पुरुष"; py "Female"; py "महिला"].

(** An upload of [n] zero bytes. *)
Definition zeros (n : N) : list Byte.byte := repeat Byte.x00 (N.to_nat n).

(** No capturing group occurs in [r]. *)
Fixpoint groupless (r : re) : bool :=
  match r with
  | Group _ => false
  | Seq r1 r2 | Alt r1 r2 => groupless r1 && groupless r2
  | Look r1 => groupless r1
  | _ => true
  end.

(** The lower-case set built from a range of ASCII letters: a-z with the
    two equivalents, dotless i and long s. *)
Definition folded_letters (x : char) : bool :=
  between 97 122 x || (x =? 0x131) || (x =? 0x17F).

(** Texts for the counterexamples. *)
Definition mixed_separators : str := py "01/02-1990".
Definition bare_label : str := py "Name:" ++ LF.

(** ** Tactics *)

Ltac inv_match M := inversion M; subst; clear M.

(** Takes a match of a concrete pattern apart, one constructor at a time;
    alternations are left to the caller. *)
Ltac inv_matches :=
  repeat match goal with
  | M : Matches _ (Seq _ _) _ _ _ |- _ => inv_match M
  | M : Matches _ (Group _) _ _ _ |- _ => inv_match M
  | M : Matches _ (Look _) _ _ _ |- _ => inv_match M
  | M : Matches _ (Atom _) _ _ _ |- _ => inv_match M
  | M : Matches _ (Rep _ _ _ _) _ _ _ |- _ => inv_match M
  | M : Matches _ Empty _ _ _ |- _ => inv_match M
  | M : Matches _ Bound _ _ _ |- _ => inv_match M
  | M : Matches _ Bol _ _ _ |- _ => inv_match M
  | M : Matches _ Eol _ _ _ |- _ => inv_match M
  end.


(** ** More vocabulary: the handler's trace and inputs *)

(** A call to a collaborator, as opposed to a log record. *)
Definition is_call (ev : event) : bool :=
  match ev with
  | Log _ _ => false
  | _ => true
  end.

(** The calls of a run that goes all the way to the OCR engine. *)
Definition full_run : list event :=
  [FileRead; ImageOpen; Convert "L"; ContrastEnhance 2;
   ImageToString "eng+hin" "--psm 3 --oem 3"].

Definition gif_upload (content : list Byte.byte) : UploadFile :=
  {| filename := "card.gif"; content_type := "image/gif"; file_content := content |}.

(** An ASCII digit. *)
Definition ascii_digit (c : char) : bool := between 48 57 c.

(** Nothing, or one white-space character other than the space. *)
Definition kept_separator `{UnicodeData} (s : str) : Prop :=
  s = [] ∨ ∃ w, s = [w] ∧ isspace w = true ∧ w ≠ 32.

(** Collaborators whose decoder refuses every upload. *)
Definition broken_decoder : Imaging :=
  {| image := unit;
     Image_open := λ _, Raise (Exception "cannot identify image file");
     image_convert := λ _ _, Ok ();
     contrast_enhance := λ _ _, Ok ();
     image_to_string := λ _ _ _, Ok [] |}.

(** Collaborators whose grayscale conversion fails on every image. *)
Definition broken_converter : Imaging :=
  {| image := unit;
     Image_open := λ _, Ok ();
     image_convert := λ _ _, Raise (Exception "image file is truncated");
     contrast_enhance := λ _ _, Ok ();
     image_to_string := λ _ _ _, Ok [] |}.

(** An ID number whose groups a tab and a line feed separate, and a text
    with two dates. *)
Definition tabbed_id : str := py "9876" ++ [9] ++ py "5432" ++ LF ++ py "1098".
Definition two_dates : str := py "a 01/02/2003 b 04/05/2006".

(** ** The rest of [fastapi_app.py]: the health endpoint *)

(** The names bound at module level when a request is served: the imports,
    [logger], [app], the functions and, when the file is run as a script,
    [uvicorn].  No builtin is called [datetime]. *)
Definition module_globals : list string :=
  ["FastAPI"; "File"; "UploadFile"; "HTTPException"; "CORSMiddleware"; "JSONResponse";
   "StaticFiles"; "HTMLResponse"; "pytesseract"; "Image"; "re"; "io"; "json"; "logging";
   "Dict"; "Any"; "Path"; "cv2"; "np"; "logger"; "app"; "preprocess_image";
   "validate_aadhaar_number"; "extract_aadhaar_info"; "root"; "extract_aadhaar_data";
   "health_check"; "uvicorn"]%string.

(** Evaluating a global name: a NameError when the module does not bind it. *)
Definition load_global (name : string) : M unit :=
  if decide (name ∈ module_globals) then ret ()
  else raise (Exception ("name '" +:+ name +:+ "' is not defined")).

Inductive health_response :=
| HealthDict (status timestamp : string) (tesseract_available : bool)
| HealthJSON (status error : string) (status_code : Z).

(** [health_check], given what [pytesseract.get_tesseract_version()] does
    and what the clock would say. *)
Definition health_check (get_tesseract_version : result string) (now_isoformat : string)
  : health_response * list event :=
  let body : M string :=
    _ ← ((get_tesseract_version, []) : M string);
    _ ← load_global "datetime";
    ret now_isoformat in
  match body with
  | (Ok timestamp, t) => (HealthDict "healthy" timestamp true, t)
  | (Raise e, t) =>
      (HealthJSON "unhealthy" (str_e e) 500,
       t ++ [Log "ERROR" ("Health check failed: " +:+ str_e e)])
  end.

(** ** The client: [streamlit_app.py] *)


(** What [st.file_uploader] returns: a name, a declared type and the bytes. *)
Record UploadedFile := {
  uf_name : string;
  uf_type : string;
  uf_value : list Byte.byte
}.

Definition MAX_FILE_SIZE : Z := 5 * 1024 * 1024.

(** The multipart upload the client posts, as the server receives it. *)
Definition as_upload (f : UploadedFile) : UploadFile :=
  {| filename := uf_name f; content_type := uf_type f; file_content := uf_value f |}.

(** What [requests.post] does: it fails to connect, raises something else,
    or returns the server's response. *)
Inductive post_result :=
| ConnectionError
| PostRaises (e : exn)
| Responded (r : response).

(** [response.status_code]; a raised HTTPException reaches the client as a
    response with its status. *)
Definition status_code_of (r : response) : Z :=
  match r with
  | HTTPException code _ => code
  | JSONResponse _ code => code
  end.

(** A line of the CSV log: the column names of a record, or its values. *)
Inductive csv_line :=
| Header (data : dict)
| Row (data : dict).

(** The number of cells of a line. *)
Definition cells (l : csv_line) : nat :=
  match l with
  | Header data | Row data => size data
  end.

(** What the page shows and does, in order. *)
Inductive ui :=
| StTitle (s : string)
| StMarkdown (s : string)
| StWrite (v : option str)
| StImage (f : UploadedFile)
| StSpinner (s : string)
| StError (s : string)
| StErrorText (r : response)       (* st.error(response.text) *)
| StSuccess (s : string)
| StInfo (s : string)
| Post (f : UploadFile).

(** [data.get(key, "Not found")] *)
Definition dict_get (data : dict) (key : string) : option str :=
  match data !! key with
  | Some v => v
  | None => Some (py "Not found")
  end.

Definition display_extraction_results (data : dict) : list ui :=
  [StMarkdown "### Extracted Information";
   StMarkdown "**Aadhaar Number:**"; StWrite (dict_get data "aadhaar_number");
   StMarkdown "**Name:**"; StWrite (dict_get data "name");
   StMarkdown "**Date of Birth:**"; StWrite (dict_get data "dob");
   StMarkdown "**Gender:**"; StWrite (dict_get data "gender")].

(** [save_to_csv]: [disk] is what writing the file does.  A log that exists
    is appended to without a header; a new one gets the header first. *)
Definition save_to_csv (data : dict) (disk : result unit) (csv : option (list csv_line))
  : bool * option (list csv_line) * list ui :=
  match disk with
  | Raise e => (false, csv, [StError ("Error saving data: " +:+ str_e e)])
  | Ok _ =>
      match csv with
      | Some lines => (true, Some (lines ++ [Row data]), [])
      | None => (true, Some [Header data; Row data], [])
      end
  end.

Section Client.
(** The size in MiB to two decimals, as the f-string of the size message
    prints it with Python's float formatting. *)
Variable format_mb : Z → string.

Definition validate_file (uploaded_file : option UploadedFile) : bool * string :=
  match uploaded_file with
  | None => (false, "No file uploaded")
  | Some f =>
      let file_size := Z.of_nat (List.length (uf_value f)) in
      if (file_size >? MAX_FILE_SIZE)%Z
      then (false, "File size exceeds 5MB limit. Current size: " +:+ format_mb file_size +:+ "MB")
      else if decide (uf_type f ∉ ["image/jpeg"; "image/png"; "image/jpg"]%string)
      then (false, "Invalid file type. Please upload a JPEG or PNG image")
      else (true, "")
  end%string.

(** What follows the click on "Extract Information". *)
Definition on_extract (f : UploadedFile) (post : UploadFile → post_result)
    (disk : result unit) (csv : option (list csv_line))
  : list ui * option (list csv_line) :=
  match post (as_upload f) with
  | ConnectionError =>
      ([Post (as_upload f);
        StError "Failed to connect to the server. Please make sure the FastAPI server is running."],
       csv)
  | PostRaises e =>
      ([Post (as_upload f); StError ("An unexpected error occurred: " +:+ str_e e)], csv)
  | Responded r =>
      if decide (status_code_of r = 200%Z) then
        match r with
        | JSONResponse (Success data _) _ =>
            let '(saved, csv', errors) := save_to_csv data disk csv in
            ([Post (as_upload f); StSuccess "Information extracted successfully!"]
             ++ display_extraction_results data ++ errors
             ++ (if saved then [StInfo "Data saved successfully to CSV"] else []),
             csv')
        | JSONResponse (Failure error _) _ =>
            ([Post (as_upload f); StError ("Error: " +:+ error)], csv)
        | HTTPException _ _ =>
            ([Post (as_upload f); StError "An unexpected error occurred: 'success'"], csv)
        end
      else
        ([Post (as_upload f); StError ("Error: " +:+ pretty.pretty (status_code_of r));
          StErrorText r], csv)
  end.

(** [main], given what the widgets return ([st.file_uploader] and
    [st.button]), the network, the disk and the CSV log so far. *)
Definition main (uploaded_file : option UploadedFile) (button : bool)
    (post : UploadFile → post_result) (disk : result unit)
    (csv : option (list csv_line)) : list ui * option (list csv_line) :=
  let page := [StTitle "Aadhaar Card Info Extractor";
               StMarkdown "Upload an Aadhaar card image to extract information"] in
  match uploaded_file with
  | None => (page, csv)
  | Some f =>
      let '(is_valid, error_message) := validate_file (Some f) in
      if negb is_valid then (page ++ [StError error_message], csv)
      else if button then
        let '(shown, csv') := on_extract f post disk csv in
        (page ++ [StImage f; StSpinner "Processing image..."] ++ shown, csv')
      else (page ++ [StImage f], csv)
  end.
End Client.

(** The server at the other end of the post. *)
Definition server `{UnicodeData} `{Imaging} (f : UploadFile) : post_result :=
  Responded (extract_aadhaar_data f).1.

Definition gif_file : UploadedFile :=
  {| uf_name := "card.gif"; uf_type := "image/gif"; uf_value := [] |}.
Definition jpeg_file : UploadedFile :=
  {| uf_name := "card.jpg"; uf_type := "image/jpeg"; uf_value := [] |}.

(** * Facts about the matcher *)

Section MatcherFacts.
Context `{UnicodeData}.
Variable fl : flags.

Local Abbreviation Matches := (Matches fl).

Lemma last_char_cons pv x taken :
  last_char pv (x :: taken) = last_char (Some x) taken.
Proof.
  unfold last_char. rewrite last_cons. by destruct (last taken).
Qed.

Lemma last_char_app pv t1 t2 :
  last_char pv (t1 ++ t2) = last_char (last_char pv t1) t2.
Proof.
  revert pv. induction t1 as [|x t1 IH]; intros pv; [done|].
  rewrite <- app_comm_cons, !last_char_cons. apply IH.
Qed.

Lemma matches_rest r c t c' : Matches r c t c' → rest c = t ++ rest c'.
Proof.
  induction 1; simpl in *; try done.
  by rewrite IHMatches1, IHMatches2, app_assoc.
Qed.

Lemma matches_prev r c t c' : Matches r c t c' → prev c' = last_char (prev c) t.
Proof.
  induction 1; simpl in *; try done.
  by rewrite IHMatches2, IHMatches1, last_char_app.
Qed.

Lemma consumed_app (taken : str) c' :
  consumed (taken ++ rest c') c' = taken.
Proof.
  unfold consumed. apply take_app_length'.
  rewrite length_app. lia.
Qed.

Lemma spans_lookup p pv s g k c' :
  spans p pv s g !! k = Some c' →
  ∃ taken, List.length taken = k ∧ s = taken ++ rest c' ∧
           Forall (λ x, p x = true) taken ∧
           c' = Cursor (last_char pv taken) (rest c') g.
Proof.
  revert pv k. induction s as [|x tl IH]; intros pv k Hk.
  - destruct k as [|k]; simpl in Hk; [|done].
    injection Hk as <-. by exists [].
  - destruct k as [|k]; simpl in Hk.
    + injection Hk as <-. by exists [].
    + destruct (p x) eqn:Hp; [|done].
      destruct (IH _ _ Hk) as (taken & Hlen & Hs & Hall & Hc).
      exists (x :: taken). rewrite last_char_cons. simpl.
      repeat split; [by f_equal | by f_equal | by constructor | done].
Qed.

Lemma mt_rep_sound lazy lo hi a c c' :
  In c' (mt fl (Rep lazy lo hi a) c) → ∃ t, Matches (Rep lazy lo hi a) c t c'.
Proof.
  simpl. intros Hin.
  assert (∃ k, (lo ≤ k)%nat ∧ (∀ h, hi = Some h → (k ≤ h)%nat) ∧
               spans (atom_match fl a) (prev c) (rest c) (grp c) !! k = Some c')
    as (k & Hlo & Hhi & Hk).
  { assert (c' ∈ upto hi lo (drop lo (spans (atom_match fl a) (prev c) (rest c) (grp c))))
      as Hel.
    { apply list_elem_of_In. destruct lazy; [done | by apply in_rev]. }
    destruct hi as [h|]; simpl in Hel.
    - apply elem_of_take in Hel as (i & Hi & Hlt). rewrite lookup_drop in Hi.
      exists (lo + i)%nat. repeat split; [lia | | done].
      intros h' [= <-]. lia.
    - apply list_elem_of_lookup in Hel as (i & Hi). rewrite lookup_drop in Hi.
      exists (lo + i)%nat. repeat split; [lia | done | done]. }
  destruct (spans_lookup _ _ _ _ _ _ Hk) as (taken & Hlen & Hs & Hall & ->).
  exists taken. simpl. apply M_Rep; [done | done | lia | ].
  intros h Hh. specialize (Hhi h Hh). lia.
Qed.

(** Every result of the matcher is a match. *)
Lemma mt_sound r c c' : In c' (mt fl r c) → ∃ t, Matches r c t c'.
Proof.
  revert c c'. induction r as [| a | lazy lo hi a | r1 IH1 r2 IH2 | r1 IH1 r2 IH2
                               | r IH | r IH | | |]; intros c c' Hin.
  - simpl in Hin. destruct Hin as [<-|[]]. exists []. constructor.
  - simpl in Hin. destruct (rest c) as [|x tl] eqn:Hr; [done|].
    destruct (atom_match fl a x) eqn:Ha; [|done].
    destruct Hin as [<-|[]]. exists [x]. by constructor.
  - by apply mt_rep_sound.
  - simpl in Hin. apply in_flat_map in Hin as (c1 & H1 & H2).
    destruct (IH1 _ _ H1) as (t1 & M1). destruct (IH2 _ _ H2) as (t2 & M2).
    exists (t1 ++ t2). by econstructor.
  - simpl in Hin. apply in_app_iff in Hin as [H1|H2].
    + destruct (IH1 _ _ H1) as (t & M1). exists t. by apply M_Alt_l.
    + destruct (IH2 _ _ H2) as (t & M2). exists t. by apply M_Alt_r.
  - simpl in Hin. apply in_map_iff in Hin as (c1 & <- & H1).
    destruct (IH _ _ H1) as (t & M1). exists t.
    rewrite (matches_rest _ _ _ _ M1), consumed_app. by constructor.
  - simpl in Hin. destruct (mt fl r c) as [|c1 l] eqn:Hm; [done|].
    destruct Hin as [<-|[]].
    destruct (IH c c1) as (t & M1); [rewrite Hm; by left|].
    exists []. by econstructor.
  - simpl in Hin. destruct (at_boundary c) eqn:Hb; [|done].
    destruct Hin as [<-|[]]. exists []. by constructor.
  - simpl in Hin. destruct (at_bol fl c) eqn:Hb; [|done].
    destruct Hin as [<-|[]]. exists []. by constructor.
  - simpl in Hin. destruct (at_eol fl c) eqn:Hb; [|done].
    destruct Hin as [<-|[]]. exists []. by constructor.
Qed.

Lemma match_at_sound r start pv s m :
  match_at fl r start pv s = Some m →
  ∃ c', s = group0 m ++ rest c' ∧
        Matches r (Cursor pv s None) (group0 m) c' ∧ group1 m = grp c'.
Proof.
  unfold match_at.
  destruct (mt fl r (Cursor pv s None)) as [|c' l] eqn:Hm; [done|].
  intros [= <-]. simpl.
  destruct (mt_sound r (Cursor pv s None) c') as (t & M1); [rewrite Hm; by left|].
  pose proof (matches_rest _ _ _ _ M1) as Hr. simpl in Hr.
  exists c'. subst s. rewrite consumed_app. by repeat split.
Qed.

(** What [re.search] returns is a match of the pattern inside the text:
    the text splits around [group(0)], and [group(1)] is what the final
    cursor holds. *)
Lemma search_from_sound r start pv s m :
  search_from fl r start pv s = Some m →
  ∃ pre post c',
    s = pre ++ group0 m ++ post ∧
    Matches r (Cursor (last_char pv pre) (group0 m ++ post) None) (group0 m) c' ∧
    rest c' = post ∧ group1 m = grp c'.
Proof.
  revert start pv. induction s as [|x tl IH]; intros start pv; simpl.
  - destruct (match_at fl r start pv []) as [m'|] eqn:Hm; [|done].
    intros [= ->]. destruct (match_at_sound _ _ _ _ _ Hm) as (c' & Hs & M1 & Hg).
    exists [], (rest c'), c'. rewrite <- Hs. by repeat split.
  - destruct (match_at fl r start pv (x :: tl)) as [m'|] eqn:Hm.
    + intros [= ->]. destruct (match_at_sound _ _ _ _ _ Hm) as (c' & Hs & M1 & Hg).
      exists [], (rest c'), c'. rewrite <- Hs. by repeat split.
    + intros Hs. destruct (IH _ _ Hs) as (pre & post & c' & Htl & M1 & Hp & Hg).
      exists (x :: pre), post, c'. rewrite last_char_cons.
      repeat split; [by rewrite Htl | done | done | done].
Qed.
End MatcherFacts.

(** * The extraction loop *)

Section Fields.
Context `{UnicodeData}.

Lemma lookup_extract_field_ne text d key pattern transform (k : string) :
  k ≠ key → extract_field text d (key, (pattern, transform)) !! k = d !! k.
Proof.
  intros Hne. unfold extract_field.
  destruct (re_search pattern text search_flags); [|done].
  by rewrite lookup_insert_ne.
Qed.

Lemma lookup_extract_field_eq text d key pattern transform :
  d !! key = Some None ∨ d !! key = None →
  extract_field text d (key, (pattern, transform)) !! key =
    match extracted key pattern transform text with
    | Some v => Some (Some v)
    | None => d !! key
    end.
Proof.
  intros _. unfold extract_field, extracted.
  destruct (re_search pattern text search_flags); [|done].
  by rewrite lookup_insert_eq.
Qed.

Lemma extract_fields_aadhaar_number text :
  extract_fields text !! "aadhaar_number"%string = Some None.
Proof.
  unfold extract_fields, patterns. cbn [foldl].
  by rewrite !lookup_extract_field_ne.
Qed.

Lemma extract_fields_aadhaar text :
  extract_fields text !! "aadhaar"%string =
    Some <$> extracted "aadhaar" aadhaar_pattern replace_spaces text.
Proof.
  unfold extract_fields, patterns. cbn [foldl].
  rewrite !lookup_extract_field_ne by done.
  rewrite lookup_extract_field_eq by (by right).
  by destruct (extracted _ _ _ _).
Qed.

Lemma extract_fields_name text :
  extract_fields text !! "name"%string = Some (extracted "name" name_pattern strip text).
Proof.
  unfold extract_fields, patterns. cbn [foldl].
  rewrite !lookup_extract_field_ne by done.
  rewrite lookup_extract_field_eq by (left; by rewrite lookup_extract_field_ne).
  rewrite lookup_extract_field_ne by done.
  by destruct (extracted _ _ _ _).
Qed.

Lemma extract_fields_dob text :
  extract_fields text !! "dob"%string = Some (extracted "dob" dob_pattern (λ x, x) text).
Proof.
  unfold extract_fields, patterns. cbn [foldl].
  rewrite !lookup_extract_field_ne by done.
  rewrite lookup_extract_field_eq by (left; by rewrite !lookup_extract_field_ne).
  rewrite !lookup_extract_field_ne by done.
  by destruct (extracted _ _ _ _).
Qed.

Lemma extract_fields_gender text :
  extract_fields text !! "gender"%string =
    Some (extracted "gender" gender_pattern gender_transform text).
Proof.
  unfold extract_fields, patterns. cbn [foldl].
  rewrite lookup_extract_field_eq by (left; by rewrite !lookup_extract_field_ne).
  rewrite !lookup_extract_field_ne by done.
  by destruct (extracted _ _ _ _).
Qed.

(** The validation step finds nothing to validate: the result is the
    dictionary of the loop, and no warning is logged. *)
Lemma extract_aadhaar_info_unvalidated text :
  extract_aadhaar_info text = (extract_fields text, []).
Proof.
  unfold extract_aadhaar_info. by rewrite extract_fields_aadhaar_number.
Qed.
End Fields.

(** * Reading matches of the four patterns *)

Section PatternFacts.
Context `{UnicodeData}.

Lemma matches_groupless fl r c t c' :
  Matches fl r c t c' → groupless r = true → grp c' = grp c.
Proof.
  induction 1; simpl; intros Hg; try done.
  - apply andb_prop in Hg as [Hg1 Hg2]. by rewrite IHMatches2, IHMatches1.
  - apply andb_prop in Hg as [Hg1 Hg2]. auto.
  - apply andb_prop in Hg as [Hg1 Hg2]. auto.
  - auto.
Qed.

Lemma atom_match_digit fl d : atom_match fl digit d = isdecimal d.
Proof. unfold atom_match, digit. simpl. rewrite andb_false_r. simpl. apply orb_false_r. Qed.

Lemma atom_match_date_sep x :
  atom_match search_flags date_sep x = true → x = chr "/" ∨ x = chr "-".
Proof.
  unfold atom_match, date_sep.
  replace (IGNORECASE search_flags && existsb item_cased [CChar 47; CChar 45])
    with false by (by vm_compute).
  simpl. rewrite orb_false_r. intros [Hx|Hx]%orb_prop; apply N.eqb_eq in Hx; subst; auto.
Qed.

Lemma re_search_sound r text m :
  re_search r text search_flags = Some m →
  ∃ pre post c',
    text = pre ++ group0 m ++ post ∧
    Matches search_flags r (Cursor (last pre) (group0 m ++ post) None) (group0 m) c' ∧
    rest c' = post ∧ group1 m = grp c'.
Proof.
  intros Hs. destruct (search_from_sound _ _ _ _ _ _ Hs) as (pre & post & c' & ? & M & ? & ?).
  exists pre, post, c'. repeat split; try done.
  unfold last_char in M. by destruct (last pre).
Qed.

Lemma length_2_inv {A} (l : list A) :
  (2 ≤ List.length l)%nat → (List.length l ≤ 2)%nat → ∃ a b, l = [a; b].
Proof. destruct l as [|a [|b [|]]]; simpl; intros; try lia. eauto. Qed.

Lemma length_4_inv {A} (l : list A) :
  (4 ≤ List.length l)%nat → (List.length l ≤ 4)%nat → ∃ a b c d, l = [a; b; c; d].
Proof. destruct l as [|a [|b [|c [|d [|]]]]]; simpl; intros; try lia. eauto 6. Qed.

(** A match of the date pattern: group 1 is the whole match, and has the
    shape digit digit sep digit digit sep digit digit digit digit. *)
Lemma dob_match_shape text m :
  re_search dob_pattern text search_flags = Some m →
  ∃ d, group1 m = Some d ∧ occurs_in d text ∧
       ∃ s1 s2, s1 ∈ [chr "/"; chr "-"] ∧ s2 ∈ [chr "/"; chr "-"] ∧ date_shape s1 s2 d.
Proof.
  intros Hs. destruct (re_search_sound _ _ _ Hs) as (pre & post & c' & Htext & M & Hpost & Hg).
  unfold dob_pattern in M. inv_matches.
  repeat match goal with
  | Hh : ∀ h, Some ?n = Some h → _ |- _ => specialize (Hh n eq_refl)
  end.
  repeat match goal with
  | H1 : (2 ≤ List.length ?l)%nat, H2 : (List.length ?l ≤ 2)%nat |- _ =>
      destruct (length_2_inv l H1 H2) as (? & ? & ->); clear H1 H2
  | H1 : (4 ≤ List.length ?l)%nat, H2 : (List.length ?l ≤ 4)%nat |- _ =>
      destruct (length_4_inv l H1 H2) as (? & ? & ? & ? & ->); clear H1 H2
  end.
  repeat match goal with
  | Hf : Forall _ (_ :: _) |- _ => apply Forall_cons in Hf as [? Hf]
  | Hf : Forall _ [] |- _ => clear Hf
  | Hd : atom_match _ (AIn [CDigit]) _ = true |- _ =>
      change (AIn [CDigit]) with digit in Hd; rewrite atom_match_digit in Hd
  | Hd : atom_match _ (AIn [CChar 47; CChar 45]) _ = true |- _ =>
      apply atom_match_date_sep in Hd
  end.
  match goal with Hg0 : _ = group0 m |- _ => rewrite <- Hg0 end.
  eexists. split; [exact Hg|]. split.
  { eexists pre, _. cbn [app]. rewrite ?app_nil_r. reflexivity. }
  eexists _, _. split; [|split]; [| |eexists _, _, _, _, _, _, _, _; split; [reflexivity|]].
  - apply list_elem_of_In. cbn [In]. intuition.
  - apply list_elem_of_In. cbn [In]. intuition.
  - repeat constructor; assumption.
Qed.
End PatternFacts.

Section LeadDigit.
Context `{UnicodeData}.

Lemma between_spec lo hi c : between lo hi c = true ↔ lo ≤ c ∧ c ≤ hi.
Proof. unfold between. rewrite andb_true_iff, !N.leb_le. done. Qed.

Lemma atom_match_lead_digit d :
  atom_match search_flags (AIn [CRange 50 57]) d = true → between 50 57 d = true.
Proof.
  unfold atom_match.
  replace (IGNORECASE search_flags && existsb item_cased [CRange 50 57])
    with false by (by vm_compute).
  simpl. by rewrite orb_false_r.
Qed.

Lemma ascii_digit_isword d : between 48 57 d = true → isword d = true.
Proof.
  intros Hd. unfold isword, isalnum, is_ascii. rewrite Hd.
  apply between_spec in Hd as [? ?].
  by rewrite (proj2 (N.ltb_lt d 128)) by lia.
Qed.

(** A match of the ID pattern starts with a digit from 2 to 9, and the
    character before it, if there is one, is not a word character. *)
Lemma aadhaar_match_lead text m :
  re_search aadhaar_pattern text search_flags = Some m →
  ∃ pre post d tl,
    text = pre ++ group0 m ++ post ∧ group0 m = d :: tl ∧
    between (chr "2") (chr "9") d = true ∧
    ∀ x, last pre = Some x → isword x = false.
Proof.
  intros Hs. destruct (re_search_sound _ _ _ Hs) as (pre & post & c' & Htext & M & Hpost & Hg).
  unfold aadhaar_pattern in M. inv_match M.
  match goal with M1 : Matches _ Bound _ _ _ |- _ => inv_match M1 end.
  match goal with M1 : Matches _ (Seq _ _) _ _ _ |- _ => inv_match M1 end.
  match goal with M1 : Matches _ (Rep _ 1 _ _) _ _ _ |- _ => inv_match M1 end.
  match goal with Hh : ∀ h, Some ?n = Some h → _ |- _ => specialize (Hh n eq_refl) end.
  match goal with Hf : Forall _ ?l, H1 : (1 ≤ List.length ?l)%nat,
                   H2 : (List.length ?l ≤ 1)%nat |- _ =>
    destruct l as [|d [|? ?]]; simpl in H1, H2; try lia;
    apply Forall_cons in Hf as [Hd _]
  end.
  apply atom_match_lead_digit in Hd.
  match goal with Hr : _ = group0 m |- _ => rename Hr into Hg0 end.
  eexists pre, (rest c'), d, _. split; [by rewrite <- Hg0|]. split; [reflexivity|]. split; [done|].
  intros x Hx.
  match goal with Hb : at_boundary _ = true |- _ =>
    unfold at_boundary in Hb; simpl in Hb; rewrite Hx in Hb;
    rewrite ascii_digit_isword in Hb
  end.
  - by destruct (isword x).
  - apply between_spec in Hd as [? ?]. apply between_spec. lia.
Qed.
End LeadDigit.

Section NameClass.
Context `{UnicodeData}.

Lemma in_crange lo hi c : In c (crange lo hi) ↔ lo ≤ c ∧ c ≤ hi.
Proof.
  unfold crange. rewrite in_map_iff. split.
  - intros (k & <- & Hk). apply in_seq in Hk. lia.
  - intros [Hlo Hhi]. exists (N.to_nat (c - lo)). split; [lia|].
    apply in_seq. lia.
Qed.

Lemma tolower_upper c : 65 ≤ c ∧ c ≤ 90 → tolower c = c + 32.
Proof.
  intros [? ?]. unfold tolower, is_ascii.
  rewrite (proj2 (N.ltb_lt c 128)) by lia.
  by rewrite (proj2 (between_spec 65 90 c)) by lia.
Qed.

Lemma tolower_lower c : 97 ≤ c ∧ c ≤ 122 → tolower c = c.
Proof.
  intros [? ?]. unfold tolower, is_ascii, between.
  rewrite (proj2 (N.ltb_lt c 128)) by lia.
  by rewrite (proj2 (N.leb_gt c 90)), andb_false_r by lia.
Qed.

Lemma folded_eq_letter lo x :
  97 ≤ lo ∧ lo ≤ 122 → folded_eq lo x = true → folded_letters x = true.
Proof.
  intros [? ?]. unfold folded_eq, folded_letters, fixes, between.
  destruct (N.eqb_spec x lo) as [->|?]; simpl.
  - intros _. by rewrite (proj2 (N.leb_le 97 lo)), (proj2 (N.leb_le lo 122)) by lia.
  - destruct (N.eqb_spec lo 0x69); simpl; [rewrite orb_false_r; intros ->; apply orb_true_iff;
      left; apply orb_true_r|].
    destruct (N.eqb_spec lo 0x73); simpl; [rewrite orb_false_r; intros ->; apply orb_true_r|done].
Qed.

Lemma folded_letters_upper x :
  existsb (λ c, folded_eq (tolower c) x) (crange 65 90) = folded_letters x.
Proof.
  apply Bool.eq_iff_eq_true. rewrite existsb_exists. split.
  - intros (c & Hc%in_crange & Hf). rewrite tolower_upper in Hf by done.
    apply (folded_eq_letter (c + 32)); [lia | done].
  - unfold folded_letters. rewrite !orb_true_iff, between_spec, !N.eqb_eq.
    intros [[[? ?]| ->]| ->].
    + exists (x - 32). rewrite in_crange, tolower_upper by lia.
      split; [lia|]. unfold folded_eq. replace (x - 32 + 32) with x by lia.
      by rewrite N.eqb_refl.
    + exists 73. rewrite in_crange. split; [lia | by vm_compute].
    + exists 83. rewrite in_crange. split; [lia | by vm_compute].
Qed.

Lemma folded_letters_lower x :
  existsb (λ c, folded_eq (tolower c) x) (crange 97 122) = folded_letters x.
Proof.
  apply Bool.eq_iff_eq_true. rewrite existsb_exists. split.
  - intros (c & Hc%in_crange & Hf). rewrite tolower_lower in Hf by done.
    by apply (folded_eq_letter c).
  - unfold folded_letters. rewrite !orb_true_iff, between_spec, !N.eqb_eq.
    intros [[[? ?]| ->]| ->].
    + exists x. rewrite in_crange, tolower_lower by lia.
      split; [lia|]. unfold folded_eq. by rewrite N.eqb_refl.
    + exists 105. rewrite in_crange. split; [lia | by vm_compute].
    + exists 115. rewrite in_crange. split; [lia | by vm_compute].
Qed.

(** [[A-Za-z\s]] under IGNORECASE is [name_class]. *)
Lemma atom_match_name_chars c :
  atom_match search_flags name_chars c = name_class c.
Proof.
  unfold atom_match, name_chars.
  replace (IGNORECASE search_flags &&
           existsb item_cased [CRange 65 90; CRange 97 122; CSpace])
    with true by (by vm_compute).
  cbn [existsb item_match_folded].
  rewrite folded_letters_upper, folded_letters_lower.
  unfold name_class, folded_letters. cbv zeta.
  destruct (between 97 122 (tolower c)), (tolower c =? 0x131), (tolower c =? 0x17F),
    (isspace (tolower c)); reflexivity.
Qed.
End NameClass.

Section Strip.
Context `{UnicodeData}.

Lemma lstrip_suffix s : ∃ ws, s = ws ++ lstrip s.
Proof.
  induction s as [|c tl [ws IH]]; [by exists []|]. simpl.
  destruct (isspace c); [|by exists []].
  exists (c :: ws). simpl. by f_equal.
Qed.

Lemma lstrip_head s c : head (lstrip s) = Some c → isspace c = false.
Proof.
  induction s as [|x tl IH]; simpl; [done|].
  destruct (isspace x) eqn:Hx; [done|]. simpl. by intros [= <-].
Qed.

Lemma rstrip_prefix s : ∃ ws, s = rstrip s ++ ws.
Proof.
  unfold rstrip. destruct (lstrip_suffix (rev s)) as [ws Hws].
  exists (rev ws). rewrite <- rev_app_distr, <- Hws. by rewrite rev_involutive.
Qed.

Lemma last_rev_head (s : str) : last (rev s) = head s.
Proof. destruct s as [|x tl]; [done|]. simpl. by rewrite last_snoc. Qed.

Lemma rstrip_last s c : last (rstrip s) = Some c → isspace c = false.
Proof. unfold rstrip. rewrite last_rev_head. apply lstrip_head. Qed.

Lemma strip_head s c : head (strip s) = Some c → isspace c = false.
Proof.
  unfold strip. destruct (rstrip_prefix (lstrip s)) as [ws Hws].
  intros Hh. apply (lstrip_head s). rewrite Hws.
  destruct (rstrip (lstrip s)); [done|]. done.
Qed.

Lemma strip_last s c : last (strip s) = Some c → isspace c = false.
Proof. apply rstrip_last. Qed.

Lemma strip_Forall (P : char → Prop) s : Forall P s → Forall P (strip s).
Proof.
  intros Hs. unfold strip.
  destruct (rstrip_prefix (lstrip s)) as [ws Hws].
  destruct (lstrip_suffix s) as [ws' Hws'].
  rewrite Hws' in Hs. apply Forall_app in Hs as [_ Hs].
  rewrite Hws in Hs. by apply Forall_app in Hs as [Hs _].
Qed.
End Strip.

Section NameMatch.
Context `{UnicodeData}.

(** A match of the name pattern: group 1 is a non-empty piece of the text
    whose characters all belong to the class of the pattern. *)
Lemma name_match_group text m :
  re_search name_pattern text search_flags = Some m →
  ∃ g, group1 m = Some g ∧ g ≠ [] ∧ occurs_in g text ∧
       Forall (λ c, name_class c = true) g.
Proof.
  intros Hs. destruct (re_search_sound _ _ _ Hs) as (pre & post & c' & Htext & M & Hpost & Hg).
  unfold name_pattern in M. inv_matches.
  match goal with Hl : Matches _ (Alt (Seq (Rep _ _ _ _) _) _) _ _ _ |- _ =>
    apply matches_groupless in Hl; [|reflexivity]; simpl in Hl, Hg; rewrite Hl in Hg
  end.
  match type of Hg with _ = Some ?g =>
    match goal with Hlen : (1 ≤ List.length g)%nat, Hf : Forall _ g |- _ =>
      rename Hlen into Hlen1; rename Hf into Hcls; exists g
    end
  end.
  split; [exact Hg|]. split; [intros ->; simpl in Hlen1; lia|].
  split.
  2:{ eapply Forall_impl; [exact Hcls|]. intros c Hc. cbv beta in Hc.
      change (AIn [CRange 65 90; CRange 97 122; CSpace]) with name_chars in Hc.
      by rewrite atom_match_name_chars in Hc. }
  match goal with Hg0 : _ = group0 m |- _ => rewrite <- Hg0 end.
  unfold occurs_in.
  match goal with |- ∃ p q, pre ++ (?a ++ ?b ++ ?c ++ ?d ++ ?g ++ ?e) ++ ?r = _ =>
    exists (pre ++ a ++ b ++ c ++ d), (e ++ r)
  end.
  by rewrite <- !app_assoc.
Qed.
End NameMatch.

Section Validator.
Context `{UnicodeData}.

Lemma spans_all p pv ds tl g :
  Forall (λ x, p x = true) ds →
  drop (List.length ds) (spans p pv (ds ++ tl) g) = spans p (last_char pv ds) tl g.
Proof.
  revert pv. induction ds as [|d ds IH]; intros pv Hds; [done|].
  apply Forall_cons in Hds as [Hd Hds]. cbn [app List.length spans]. rewrite Hd.
  cbn [drop]. rewrite last_char_cons. by apply IH.
Qed.

(** An exact count [a{n}] on a text that starts with [n] characters of the
    atom has one result: the position after them. *)
Lemma mt_times fl n a c ds tl :
  rest c = ds ++ tl → List.length ds = n →
  Forall (λ x, atom_match fl a x = true) ds →
  mt fl (times n a) c = [Cursor (last_char (prev c) ds) tl (grp c)].
Proof.
  intros Hr <- Hds. unfold times. cbn [mt upto]. rewrite Hr, spans_all by done.
  replace (S (List.length ds) - List.length ds)%nat with 1%nat by lia.
  by destruct tl.
Qed.

Lemma validate_accepts s ds :
  twelve_digits ds →
  replace_spaces s = ds ∨ replace_spaces s = ds ++ LF →
  validate_aadhaar_number s = true.
Proof.
  intros [Hlen Hds] Hs. unfold validate_aadhaar_number.
  destruct s as [|c s].
  { simpl in Hs. destruct Hs as [<-|Hs]; [simpl in Hlen; lia | by destruct ds]. }
  remember (replace_spaces (c :: s)) as s' eqn:Es'. clear Es'.
  unfold re_match, match_at, seqs. cbn [foldr].
  assert (∃ tl, s' = ds ++ tl ∧ (tl = [] ∨ tl = LF)) as (tl & -> & Htl).
  { destruct Hs as [->| ->]; [exists [] | exists LF]; rewrite ?app_nil_r; auto. }
  cbn [mt at_bol prev flat_map].
  rewrite (mt_times _ 12 digit _ ds tl); [|done|done|].
  - cbn [flat_map mt at_eol rest]. by destruct Htl as [-> | ->].
  - eapply Forall_impl; [exact Hds|]. intros d Hd. by rewrite atom_match_digit.
Qed.

Lemma validate_sound s :
  validate_aadhaar_number s = true →
  ∃ ds, twelve_digits ds ∧ (replace_spaces s = ds ∨ replace_spaces s = ds ++ LF).
Proof.
  unfold validate_aadhaar_number. destruct s as [|c s]; [done|].
  set (s' := replace_spaces (c :: s)).
  destruct (re_match _ s') as [m|] eqn:Hm; [intros _|done].
  unfold re_match in Hm. apply match_at_sound in Hm as (c' & Hs' & M & _).
  unfold seqs, times in M. cbn [foldr] in M. inv_matches.
  match goal with Hh : ∀ h, Some ?n = Some h → _ |- _ => specialize (Hh n eq_refl) end.
  match goal with Hf : Forall _ ?ds |- _ => rename Hf into Hds; exists ds end.
  match goal with Hr : rest _ = _ ++ _, He : at_eol _ _ = true |- _ =>
    rename Hr into Hrest; rename He into Heol
  end.
  simpl in Hrest, Heol.
  split.
  - split; [lia|]. eapply Forall_impl; [exact Hds|]. intros d Hd. cbv beta in Hd.
    by rewrite atom_match_digit in Hd.
  - rewrite Hrest.
    match type of Hrest with _ = _ ++ ?tl =>
      destruct tl as [|x [|? ?]]; [left; by rewrite app_nil_r| |]; unfold at_eol in Heol; simpl in Heol
    end.
    + right. destruct (N.eqb_spec x 10) as [->|]; [done | discriminate].
    + destruct (x =? 10); discriminate.
Qed.
End Validator.

(** * Reading the fields of the record *)

Section FieldFacts.
Context `{UnicodeData}.

Lemma dob_field text d :
  (extract_aadhaar_info text).1 !! "dob"%string = Some (Some d) →
  ∃ m, re_search dob_pattern text search_flags = Some m ∧ group1 m = Some d.
Proof.
  rewrite extract_aadhaar_info_unvalidated. simpl. rewrite extract_fields_dob.
  unfold extracted. destruct (re_search dob_pattern text search_flags) as [m|] eqn:Hm; [|done].
  destruct (dob_match_shape _ _ Hm) as (d' & Hg & _). rewrite Hg.
  case_decide; [|done]. simpl. intros [= <-]. eauto.
Qed.

Lemma name_field text n :
  (extract_aadhaar_info text).1 !! "name"%string = Some (Some n) →
  ∃ m g, re_search name_pattern text search_flags = Some m ∧ group1 m = Some g ∧
         n = strip g.
Proof.
  rewrite extract_aadhaar_info_unvalidated. simpl. rewrite extract_fields_name.
  unfold extracted. destruct (re_search name_pattern text search_flags) as [m|] eqn:Hm; [|done].
  destruct (name_match_group _ _ Hm) as (g & Hg & _). rewrite Hg.
  case_decide; [|done]. simpl. intros [= <-]. eauto.
Qed.

(** Group 1 takes part in every match of the three patterns that have one. *)
Lemma group1_participates text m :
  re_search name_pattern text search_flags = Some m ∨
  re_search dob_pattern text search_flags = Some m ∨
  re_search gender_pattern text search_flags = Some m →
  is_Some (group1 m).
Proof.
  intros [Hm|[Hm|Hm]].
  - destruct (name_match_group _ _ Hm) as (g & -> & _). eauto.
  - destruct (dob_match_shape _ _ Hm) as (g & -> & _). eauto.
  - destruct (re_search_sound _ _ _ Hm) as (pre & post & c' & _ & M & _ & ->).
    unfold gender_pattern in M. inv_matches. simpl. eauto.
Qed.

Lemma gender_transform_values x : gender_transform x ∈ gender_values.
Proof.
  unfold gender_transform, gender_values.
  repeat case_decide; apply list_elem_of_In; cbn [In]; auto.
Qed.
End FieldFacts.

Section HandlerFacts.
Context `{UnicodeData} `{Imaging}.

(** The answer of the handler when the upload passes the two checks and the
    collaborators succeed: it depends on the recognised text alone. *)
Lemma handler_outcome file img gray enhanced text :
  (Z.of_nat (List.length (file_content file)) ≤ max_size)%Z →
  content_type file ∈ allowed_types →
  Image_open (file_content file) = Ok img →
  image_convert img "L" = Ok gray →
  contrast_enhance gray 2 = Ok enhanced →
  image_to_string enhanced "eng+hin" "--psm 3 --oem 3" = Ok text →
  (extract_aadhaar_data file).1 =
    match strip text with
    | [] => JSONResponse (Failure "Failed to process image" "No text detected in image") 500
    | _ :: _ =>
        if any_values (extract_fields text)
        then JSONResponse (Success (extract_fields text) "Information extracted successfully") 200
        else JSONResponse
               (Failure "Failed to process image" "No valid information could be extracted") 500
    end.
Proof.
  intros Hsize Htype Hopen Hconv Henh Hocr. unfold extract_aadhaar_data.
  destruct (Z.gtb_spec (Z.of_nat (List.length (file_content file))) max_size); [lia|].
  case_decide; [done|].
  unfold process, preprocess_image. rewrite Hopen.
  cbn -[extract_aadhaar_info extract_fields strip any_values]. rewrite Hconv.
  cbn -[extract_aadhaar_info extract_fields strip any_values]. rewrite Henh.
  cbn -[extract_aadhaar_info extract_fields strip any_values]. rewrite Hocr.
  cbn -[extract_aadhaar_info extract_fields strip any_values].
  destruct (strip text) as [|c tl]; [done|].
  rewrite extract_aadhaar_info_unvalidated. cbn -[extract_fields any_values].
  by destruct (any_values (extract_fields text)).
Qed.
End HandlerFacts.

Section Examples.
Context `{UnicodeData}.

(** Both scripts: a Devanagari label and a Devanagari gender token. *)
Example devanagari_label_and_gender :
  let d := (extract_aadhaar_info (py "नाम: Ravi पुरुष ")).1 in
  d !! "name"%string = Some (Some (py "Ravi")) ∧
  d !! "gender"%string = Some (Some (py "Male")).
Proof. by vm_compute. Qed.

(** White space inside a name is kept whatever its kind: here a tab. *)
Example name_keeps_tab :
  (extract_aadhaar_info (py "Name: A" ++ [9] ++ py "B")).1 !! "name"%string
    = Some (Some (py "A" ++ [9] ++ py "B")).
Proof. by vm_compute. Qed.

(** An empty name is a value [any] does not count. *)
Example empty_name_is_not_a_value :
  (extract_aadhaar_info bare_label).1 !! "name"%string = Some (Some []) ∧
  any_values (extract_aadhaar_info bare_label).1 = false.
Proof. by vm_compute. Qed.

(** No calendar check on the date. *)
Example dob_out_of_calendar :
  (extract_aadhaar_info (py "32/13/2090")).1 !! "dob"%string = Some (Some (py "32/13/2090")).
Proof. by vm_compute. Qed.

(** The validator strips spaces only, and reads [$] as Python does. *)
Example validator_cases :
  validate_aadhaar_number (py "9876 5432 1098") = true ∧
  validate_aadhaar_number (py "98 76543 21098") = true ∧
  validate_aadhaar_number (py "0000 0000 0000") = true ∧
  validate_aadhaar_number (py "123456789012" ++ LF) = true ∧
  validate_aadhaar_number (py "98765432109") = false ∧
  validate_aadhaar_number (py "9876543210987") = false ∧
  validate_aadhaar_number (py "98765432109x") = false ∧
  validate_aadhaar_number [] = false.
Proof. by vm_compute. Qed.
End Examples.

(** * The claims *)

(** C1 (the code at the claim's input). On the recognised text
    "Name: Asha Kumar / DOB: 01/01/1990 / Gender: Female / 9876 5432 1098"
    the name, date of birth and gender come out as the claim says, but the
    twelve digits are stored under the key "aadhaar" of the pattern table,
    and the field "aadhaar_number" of the record stays None. *)
Theorem C1_digits_under_table_key `{UnicodeData} :
  let d := (extract_aadhaar_info card_text).1 in
  d !! "aadhaar_number"%string = Some None ∧
  d !! "aadhaar"%string = Some (Some (py "987654321098")) ∧
  d !! "name"%string = Some (Some (py "Asha Kumar")) ∧
  d !! "dob"%string = Some (Some (py "01/01/1990")) ∧
  d !! "gender"%string = Some (Some (py "Female")).
Proof. vm_compute. by repeat split. Qed.

(** C2. For every text the record returned by extract_aadhaar_info has
    aadhaar_number equal to None: a match of the ID pattern is stored,
    space-stripped, under the key "aadhaar", and the validation branch is
    never taken (the result is the dictionary of the loop, with no warning
    logged). *)
Theorem C2_aadhaar_number_always_none `{UnicodeData} (text : str) :
  (extract_aadhaar_info text).1 !! "aadhaar_number"%string = Some None ∧
  (∀ m, re_search aadhaar_pattern text search_flags = Some m →
        (extract_aadhaar_info text).1 !! "aadhaar"%string
          = Some (Some (replace_spaces (group0 m)))) ∧
  extract_aadhaar_info text = (extract_fields text, []).
Proof.
  rewrite extract_aadhaar_info_unvalidated. simpl.
  split; [apply extract_fields_aadhaar_number|]. split; [|done].
  intros m Hm. rewrite extract_fields_aadhaar. unfold extracted. by rewrite Hm.
Qed.

(** C3 (the code at a failing input). When the OCR text is
    "9876 5432 1098" the call is reported successful although all four
    fields of the record - aadhaar_number, name, dob, gender - are None:
    the only value [any] finds is the one under the key "aadhaar". *)
Theorem C3_success_with_no_field `{UnicodeData} :
  ∃ d t,
    @extract_aadhaar_data _ (ocr_returning (py "9876 5432 1098")) (jpeg_upload [])
      = (JSONResponse (Success d "Information extracted successfully") 200, t) ∧
    d !! "aadhaar_number"%string = Some None ∧ d !! "name"%string = Some None ∧
    d !! "dob"%string = Some None ∧ d !! "gender"%string = Some None ∧
    d !! "aadhaar"%string = Some (Some (py "987654321098")).
Proof.
  eexists _, _. split; [by vm_compute|]. by vm_compute.
Qed.

(** C4 (amended). A string that, with its spaces removed, is exactly twelve
    decimal digits is accepted by the validator, whatever its first digit
    and wherever the spaces stood; and every string the validator accepts
    is, with its spaces removed, twelve decimal digits, or twelve decimal
    digits and one line feed after them. *)
Theorem C4_validator_twelve_digits `{UnicodeData} (s : str) :
  (twelve_digits (replace_spaces s) → validate_aadhaar_number s = true) ∧
  (validate_aadhaar_number s = true →
   twelve_digits (replace_spaces s) ∨
   ∃ ds, twelve_digits ds ∧ replace_spaces s = ds ++ LF).
Proof.
  split.
  - intros Hd. apply (validate_accepts s (replace_spaces s)); auto.
  - intros Hv. destruct (validate_sound s Hv) as (ds & Hds & [Hs|Hs]).
    + left. by rewrite Hs.
    + right. eauto.
Qed.

(** The validator accepts "123456789012", which begins with 1. *)
Lemma C4_leading_one_accepted :
  ¬ (∀ (U : UnicodeData) (s : str),
       (∃ tl, s = chr "0" :: tl ∨ s = chr "1" :: tl) →
       validate_aadhaar_number s = false).
Proof.
  intros Hc. specialize (Hc no_other_blocks (py "123456789012")).
  assert (@validate_aadhaar_number no_other_blocks (py "123456789012") = true) as Hv
    by (by vm_compute).
  rewrite Hc in Hv; [done|]. eexists. right. by vm_compute.
Qed.

(** C5. A match of the ID pattern always begins with a digit from 2 to 9
    that no word character (so no digit) precedes; on "1234 5678 9012" the
    pattern finds nothing, nothing is stored and aadhaar_number is None;
    and for every text the validation step leaves the record as the loop
    produced it, without a warning. *)
Theorem C5_no_low_lead_digit `{UnicodeData} (text : str) :
  (∀ m, re_search aadhaar_pattern text search_flags = Some m →
        ∃ pre post d tl,
          text = pre ++ group0 m ++ post ∧ group0 m = d :: tl ∧
          between (chr "2") (chr "9") d = true ∧
          ∀ x, last pre = Some x → isword x = false) ∧
  (re_search aadhaar_pattern (py "1234 5678 9012") search_flags = None ∧
   (extract_aadhaar_info (py "1234 5678 9012")).1 !! "aadhaar"%string = None ∧
   (extract_aadhaar_info (py "1234 5678 9012")).1 !! "aadhaar_number"%string = Some None) ∧
  extract_aadhaar_info text = (extract_fields text, []).
Proof.
  split; [|split].
  - apply aadhaar_match_lead.
  - by vm_compute.
  - apply extract_aadhaar_info_unvalidated.
Qed.

(** C6. The gender transform sends every token of the vocabulary
    {Male, Female, Transgender, पुरुष, महिला, किन्नर} to one of the three
    distinct values {Male, Female, Transgender}, and applying it twice
    gives the same as applying it once. *)
Theorem C6_gender_transform_total_idempotent :
  Forall (λ x, gender_transform x ∈ gender_values) gender_vocabulary ∧
  NoDup gender_values ∧
  ∀ x, gender_transform (gender_transform x) = gender_transform x.
Proof.
  split; [|split].
  - apply Forall_forall. intros x _. apply gender_transform_values.
  - apply (bool_decide_unpack (NoDup gender_values)). by vm_compute.
  - intros x. pose proof (gender_transform_values x) as Hx.
    unfold gender_values in Hx.
    apply elem_of_cons in Hx as [->|Hx]; [by vm_compute|].
    apply elem_of_cons in Hx as [->|Hx]; [by vm_compute|].
    apply list_elem_of_singleton in Hx as ->. by vm_compute.
Qed.

(** C7. The gender pattern matches without regard to case, the transform
    compares exactly: whenever the matched token is not literally one of
    "Male", "पुरुष", "Female", "महिला", the gender of the record is
    "Transgender"; "MALE" and "female" are matched and come out so. *)
Theorem C7_gender_case_mismatch `{UnicodeData} (text : str) :
  (∀ m tok, re_search gender_pattern text search_flags = Some m →
            group1 m = Some tok → tok ∉ gender_literals →
            (extract_aadhaar_info text).1 !! "gender"%string
              = Some (Some (py "Transgender"))) ∧
  (group1 <$> re_search gender_pattern (py "MALE") search_flags = Some (Some (py "MALE")) ∧
   (extract_aadhaar_info (py "MALE")).1 !! "gender"%string = Some (Some (py "Transgender"))) ∧
  (group1 <$> re_search gender_pattern (py "female") search_flags = Some (Some (py "female")) ∧
   (extract_aadhaar_info (py "female")).1 !! "gender"%string = Some (Some (py "Transgender"))).
Proof.
  split; [|by vm_compute].
  intros m tok Hm Hg Hnot. rewrite extract_aadhaar_info_unvalidated. simpl.
  rewrite extract_fields_gender. unfold extracted. rewrite Hm, Hg. simpl.
  do 2 f_equal. unfold gender_transform, gender_literals in *.
  repeat case_decide; [exfalso; apply Hnot .. | done];
    rewrite !elem_of_cons in *; tauto.
Qed.

(** C8. An upload of more than 5 MiB (5*1024*1024 bytes) is refused with
    HTTP status 400, "File size too large (max 5MB)", and apart from reading
    the upload nothing has happened by then: no image was decoded or
    preprocessed and the OCR engine was not called. *)
Theorem C8_oversize_rejected_first `{UnicodeData} `{Imaging} (file : UploadFile) :
  (Z.of_nat (List.length (file_content file)) > 5 * 1024 * 1024)%Z →
  extract_aadhaar_data file
    = (HTTPException 400 "File size too large (max 5MB)", [FileRead]).
Proof.
  intros Hbig. unfold extract_aadhaar_data, max_size.
  destruct (Z.gtb_spec (Z.of_nat (List.length (file_content file))) (5 * 1024 * 1024));
    [done | lia].
Qed.

Lemma C8_oversize_witness :
  (Z.of_nat (List.length (file_content (jpeg_upload (zeros 5242881)))) > 5 * 1024 * 1024)%Z ∧
  @extract_aadhaar_data no_other_blocks (ocr_returning card_text) (jpeg_upload (zeros 5242881))
    = (HTTPException 400 "File size too large (max 5MB)", [FileRead]).
Proof.
  assert (Z.of_nat (List.length (file_content (jpeg_upload (zeros 5242881)))) > 5 * 1024 * 1024)%Z
    as Hbig.
  { unfold jpeg_upload, zeros, file_content. rewrite repeat_length. lia. }
  split; [exact Hbig|].
  exact (@C8_oversize_rejected_first no_other_blocks (ocr_returning card_text) _ Hbig).
Defined.

(** C9 (amended). Whenever dob is present it is a piece of the text, as it
    stands there, made of two digits, a separator, two digits, a separator
    and four digits, where each separator is "/" or "-" and the two need not
    be the same; the digits are not checked against the calendar. *)
Theorem C9_dob_as_matched `{UnicodeData} (text d : str) :
  (extract_aadhaar_info text).1 !! "dob"%string = Some (Some d) →
  occurs_in d text ∧
  ∃ s1 s2, s1 ∈ [chr "/"; chr "-"] ∧ s2 ∈ [chr "/"; chr "-"] ∧ date_shape s1 s2 d.
Proof.
  intros (m & Hm & Hg)%dob_field.
  destruct (dob_match_shape _ _ Hm) as (d' & Hg' & Hocc & Hshape).
  rewrite Hg in Hg'. by injection Hg' as <-.
Qed.

Lemma C9_dob_witness :
  (@extract_aadhaar_info no_other_blocks (py "32/13/2090")).1 !! "dob"%string
    = Some (Some (py "32/13/2090")) ∧
  (occurs_in (py "32/13/2090") (py "32/13/2090") ∧
   ∃ s1 s2, s1 ∈ [chr "/"; chr "-"] ∧ s2 ∈ [chr "/"; chr "-"] ∧
            @date_shape no_other_blocks s1 s2 (py "32/13/2090")).
Proof.
  assert ((@extract_aadhaar_info no_other_blocks (py "32/13/2090")).1 !! "dob"%string
            = Some (Some (py "32/13/2090"))) as Hd by (by vm_compute).
  split; [exact Hd|].
  exact (@C9_dob_as_matched no_other_blocks _ _ Hd).
Defined.

(** On "01/02-1990" dob is "01/02-1990", which is neither DD/MM/YYYY nor
    DD-MM-YYYY. *)
Lemma C9_mixed_separators :
  ¬ (∀ (U : UnicodeData) (text d : str),
       (extract_aadhaar_info text).1 !! "dob"%string = Some (Some d) →
       date_shape (chr "/") (chr "/") d ∨ date_shape (chr "-") (chr "-") d).
Proof.
  intros Hc. specialize (Hc no_other_blocks mixed_separators mixed_separators).
  destruct Hc as [Hd|Hd]; [by vm_compute | |];
    destruct Hd as (d1 & d2 & d3 & d4 & d5 & d6 & d7 & d8 & Heq & _);
    vm_compute in Heq; discriminate Heq.
Qed.

(** C10 (amended). Whenever name is present it is the matched group with
    the white space at its two ends stripped: the group is a non-empty piece
    of the text, every character of the name is one that [A-Za-z\s] matches
    without regard to case (a letter whose lower case is a-z, dotless i or
    long s, or a white-space character), and the name neither begins nor
    ends with white space; it may be empty. *)
Theorem C10_name_stripped_group `{UnicodeData} (text n : str) :
  (extract_aadhaar_info text).1 !! "name"%string = Some (Some n) →
  (∃ g, g ≠ [] ∧ occurs_in g text ∧ n = strip g) ∧
  Forall (λ c, name_class c = true) n ∧
  (∀ c, head n = Some c → isspace c = false) ∧
  (∀ c, last n = Some c → isspace c = false).
Proof.
  intros (m & g & Hm & Hg & ->)%name_field.
  destruct (name_match_group _ _ Hm) as (g' & Hg' & Hne & Hocc & Hcls).
  rewrite Hg in Hg'. injection Hg' as <-.
  split; [by exists g|]. split; [by apply strip_Forall|].
  split; [apply strip_head | apply strip_last].
Qed.

Lemma C10_name_witness :
  (@extract_aadhaar_info no_other_blocks card_text).1 !! "name"%string
    = Some (Some (py "Asha Kumar")) ∧
  ((∃ g, g ≠ [] ∧ occurs_in g card_text ∧ py "Asha Kumar" = @strip no_other_blocks g) ∧
   Forall (λ c, @name_class no_other_blocks c = true) (py "Asha Kumar") ∧
   (∀ c, head (py "Asha Kumar") = Some c → @isspace no_other_blocks c = false) ∧
   (∀ c, last (py "Asha Kumar") = Some c → @isspace no_other_blocks c = false)).
Proof.
  assert ((@extract_aadhaar_info no_other_blocks card_text).1 !! "name"%string
            = Some (Some (py "Asha Kumar"))) as Hn by (by vm_compute).
  split; [exact Hn|].
  exact (@C10_name_stripped_group no_other_blocks _ _ Hn).
Defined.

(** On "Name:" followed by a line feed the name is present and empty. *)
Lemma C10_empty_name :
  ¬ (∀ (U : UnicodeData) (text n : str),
       (extract_aadhaar_info text).1 !! "name"%string = Some (Some n) →
       n ≠ [] ∧ Forall (λ c, ascii_letter c || (c =? chr " ") = true) n).
Proof.
  intros Hc. destruct (Hc no_other_blocks bare_label []) as [Hne _]; [by vm_compute|].
  by apply Hne.
Qed.

(** * Further properties of the handler *)

Section HandlerRuns.
Context `{UnicodeData} `{Imaging}.

(** The run of the processing block, collaborator by collaborator. *)
Lemma process_run file content :
  process file content =
    match Image_open content with
    | Raise e => (Raise e, [ImageOpen])
    | Ok img =>
      match image_convert img "L" with
      | Raise e =>
          (Raise (Exception "Failed to preprocess image"),
           [ImageOpen; Convert "L"; Log "ERROR" ("Error in image preprocessing: " +:+ str_e e)])
      | Ok gray =>
        match contrast_enhance gray 2 with
        | Raise e =>
            (Raise (Exception "Failed to preprocess image"),
             [ImageOpen; Convert "L"; ContrastEnhance 2;
              Log "ERROR" ("Error in image preprocessing: " +:+ str_e e)])
        | Ok enhanced =>
          match image_to_string enhanced "eng+hin" "--psm 3 --oem 3" with
          | Raise e =>
              (Raise e, [ImageOpen; Convert "L"; ContrastEnhance 2;
                         ImageToString "eng+hin" "--psm 3 --oem 3"])
          | Ok text =>
            match strip text with
            | [] =>
                (Raise (Exception "No text detected in image"),
                 [ImageOpen; Convert "L"; ContrastEnhance 2;
                  ImageToString "eng+hin" "--psm 3 --oem 3"])
            | _ :: _ =>
                if any_values (extract_fields text)
                then (Ok (extract_fields text),
                      [ImageOpen; Convert "L"; ContrastEnhance 2;
                       ImageToString "eng+hin" "--psm 3 --oem 3";
                       Log "INFO" ("Successfully processed image: " +:+ filename file)])
                else (Raise (Exception "No valid information could be extracted"),
                      [ImageOpen; Convert "L"; ContrastEnhance 2;
                       ImageToString "eng+hin" "--psm 3 --oem 3"])
            end
          end
        end
      end
    end.
Proof.
  unfold process, preprocess_image.
  destruct (Image_open content) as [img|e]; [|done].
  cbn -[extract_aadhaar_info extract_fields strip any_values].
  destruct (image_convert img "L") as [gray|e]; [|done].
  cbn -[extract_aadhaar_info extract_fields strip any_values].
  destruct (contrast_enhance gray 2) as [enhanced|e]; [|done].
  cbn -[extract_aadhaar_info extract_fields strip any_values].
  destruct (image_to_string enhanced "eng+hin" "--psm 3 --oem 3") as [text|e]; [|done].
  cbn -[extract_aadhaar_info extract_fields strip any_values].
  destruct (strip text) as [|c tl]; [done|].
  rewrite extract_aadhaar_info_unvalidated. cbn -[extract_fields any_values].
  by destruct (any_values (extract_fields text)).
Qed.
End HandlerRuns.

Section HandlerExtras.
Context `{UnicodeData} `{Imaging}.

(** X1. An upload within the size limit whose declared type is none of
    image/jpeg, image/png, image/jpg is refused with status 400 and
    "Invalid file type. Only JPEG and PNG are allowed"; nothing but the
    read of the upload has happened. *)
Theorem X1_unsupported_type_rejected (file : UploadFile) :
  (Z.of_nat (List.length (file_content file)) ≤ 5 * 1024 * 1024)%Z →
  content_type file ∉ allowed_types →
  extract_aadhaar_data file
    = (HTTPException 400 "Invalid file type. Only JPEG and PNG are allowed", [FileRead]).
Proof.
  intros Hsize Htype. unfold extract_aadhaar_data, max_size.
  destruct (Z.gtb_spec (Z.of_nat (List.length (file_content file))) (5 * 1024 * 1024));
    [lia|].
  by case_decide.
Qed.

(** The three kinds of answer, with what leads to each. *)
Lemma handler_response_cases (file : UploadFile) :
  (∃ detail, (extract_aadhaar_data file).1 = HTTPException 400 detail ∧
     ((Z.of_nat (List.length (file_content file)) > max_size)%Z ∨
      content_type file ∉ allowed_types)) ∨
  ((Z.of_nat (List.length (file_content file)) ≤ max_size)%Z ∧
   content_type file ∈ allowed_types ∧
   ((∃ data, (extract_aadhaar_data file).1
               = JSONResponse (Success data "Information extracted successfully") 200 ∧
             any_values data = true) ∨
    (∃ detail, (extract_aadhaar_data file).1
                 = JSONResponse (Failure "Failed to process image" detail) 500))).
Proof.
  unfold extract_aadhaar_data.
  destruct (Z.gtb_spec (Z.of_nat (List.length (file_content file))) max_size);
    [left; eexists; split; [done|left; lia]|].
  case_decide; [left; eexists; split; [done|by right]|].
  right. split; [done|].
  split; [by destruct (decide (content_type file ∈ allowed_types))|]. rewrite process_run.
  destruct (Image_open _) as [img|e]; [|right; by eexists].
  destruct (image_convert img "L") as [gray|e]; [|right; by eexists].
  destruct (contrast_enhance gray 2) as [enhanced|e]; [|right; by eexists].
  destruct (image_to_string enhanced _ _) as [text|e]; [|right; by eexists].
  destruct (strip text) as [|c tl]; [right; by eexists|].
  destruct (any_values (extract_fields text)) eqn:Hany; [left|right]; by eexists.
Qed.

(** X3. Status and body always agree: a raised HTTPException has status
    400; a success body comes with status 200 and a record in which some
    value is a non-empty string; a failure body comes with status 500 and
    the error "Failed to process image". *)
Theorem X3_status_matches_body (file : UploadFile) :
  match (extract_aadhaar_data file).1 with
  | HTTPException code _ => code = 400%Z
  | JSONResponse (Success data _) code => code = 200%Z ∧ any_values data = true
  | JSONResponse (Failure error _) code =>
      code = 500%Z ∧ error = "Failed to process image"%string
  end.
Proof.
  destruct (handler_response_cases file)
    as [(detail & -> & _) | (_ & _ & [(data & -> & Hany) | (detail & ->)])]; auto.
Qed.

(** X4. When the decoder refuses the upload the answer is the failure body
    with the decoder's own message, and the run stops there: the trace is
    the read, the decoding attempt and the error record. *)
Theorem X4_decode_failure_stops_run (file : UploadFile) (e : exn) :
  (Z.of_nat (List.length (file_content file)) ≤ 5 * 1024 * 1024)%Z →
  content_type file ∈ allowed_types →
  Image_open (file_content file) = Raise e →
  extract_aadhaar_data file
    = (JSONResponse (Failure "Failed to process image" (str_e e)) 500,
       [FileRead; ImageOpen;
        Log "ERROR" ("Error processing " +:+ filename file +:+ ": " +:+ str_e e)]).
Proof.
  intros Hsize Htype Hopen. unfold extract_aadhaar_data, max_size.
  destruct (Z.gtb_spec (Z.of_nat (List.length (file_content file))) (5 * 1024 * 1024));
    [lia|].
  case_decide; [done|]. by rewrite process_run, Hopen.
Qed.

(** X5. Whatever goes wrong in preprocessing - the grayscale conversion or
    the contrast enhancement - the caller sees "Failed to preprocess image"
    and not the underlying message, and the OCR engine is not called. *)
Theorem X5_preprocessing_error_masked (file : UploadFile) (img : image) (e : exn) :
  (Z.of_nat (List.length (file_content file)) ≤ 5 * 1024 * 1024)%Z →
  content_type file ∈ allowed_types →
  Image_open (file_content file) = Ok img →
  (image_convert img "L" = Raise e ∨
   ∃ gray, image_convert img "L" = Ok gray ∧ contrast_enhance gray 2 = Raise e) →
  (extract_aadhaar_data file).1
    = JSONResponse (Failure "Failed to process image" "Failed to preprocess image") 500 ∧
  ∀ lang config, ImageToString lang config ∉ (extract_aadhaar_data file).2.
Proof.
  intros Hsize Htype Hopen Hpre. unfold extract_aadhaar_data, max_size.
  destruct (Z.gtb_spec (Z.of_nat (List.length (file_content file))) (5 * 1024 * 1024));
    [lia|].
  case_decide; [done|]. rewrite process_run, Hopen.
  destruct Hpre as [-> | (gray & -> & ->)]; (split; [done|]); intros lang config Hin;
    apply list_elem_of_In in Hin; cbn in Hin; intuition discriminate.
Qed.

(** X6. In every run the calls to the outside are made in one fixed order
    and each at most once: without the log records, the trace is an initial
    part of read, decode, convert to "L", enhance by 2, recognise. *)
Theorem X6_calls_in_order (file : UploadFile) :
  List.filter is_call (extract_aadhaar_data file).2 `prefix_of` full_run.
Proof.
  unfold extract_aadhaar_data, full_run.
  destruct (Z.of_nat (List.length (file_content file)) >? max_size)%Z;
    [by eexists|].
  case_decide; [by eexists|]. rewrite process_run.
  destruct (Image_open _) as [img|e]; [|by eexists].
  destruct (image_convert img "L") as [gray|e]; [|by eexists].
  destruct (contrast_enhance gray 2) as [enhanced|e]; [|by eexists].
  destruct (image_to_string enhanced _ _) as [text|e]; [|by eexists].
  destruct (strip text) as [|c tl]; [by eexists|].
  destruct (any_values (extract_fields text)); by eexists.
Qed.
End HandlerExtras.

Lemma X1_unsupported_type_witness :
  ((Z.of_nat (List.length (file_content (gif_upload []))) ≤ 5 * 1024 * 1024)%Z ∧
   content_type (gif_upload []) ∉ allowed_types) ∧
  @extract_aadhaar_data no_other_blocks (ocr_returning card_text) (gif_upload [])
    = (HTTPException 400 "Invalid file type. Only JPEG and PNG are allowed", [FileRead]).
Proof.
  assert ((Z.of_nat (List.length (file_content (gif_upload []))) ≤ 5 * 1024 * 1024)%Z)
    as Hsize by (simpl; lia).
  assert (content_type (gif_upload []) ∉ allowed_types) as Htype
    by (apply (bool_decide_unpack _); by vm_compute).
  split; [by split|].
  exact (@X1_unsupported_type_rejected no_other_blocks (ocr_returning card_text) _ Hsize Htype).
Defined.

Lemma X4_decode_failure_witness :
  @extract_aadhaar_data no_other_blocks broken_decoder (jpeg_upload [])
    = (JSONResponse (Failure "Failed to process image" "cannot identify image file") 500,
       [FileRead; ImageOpen;
        Log "ERROR" "Error processing card.jpg: cannot identify image file"]).
Proof.
  assert ((Z.of_nat (List.length (file_content (jpeg_upload []))) ≤ 5 * 1024 * 1024)%Z)
    as Hsize by (simpl; lia).
  assert (content_type (jpeg_upload []) ∈ allowed_types) as Htype
    by (apply (bool_decide_unpack _); by vm_compute).
  exact (@X4_decode_failure_stops_run no_other_blocks broken_decoder (jpeg_upload [])
           (Exception "cannot identify image file") Hsize Htype eq_refl).
Defined.

Lemma X5_preprocessing_witness :
  (@extract_aadhaar_data no_other_blocks broken_converter (jpeg_upload [])).1
    = JSONResponse (Failure "Failed to process image" "Failed to preprocess image") 500 ∧
  ∀ lang config,
    ImageToString lang config
      ∉ (@extract_aadhaar_data no_other_blocks broken_converter (jpeg_upload [])).2.
Proof.
  assert ((Z.of_nat (List.length (file_content (jpeg_upload []))) ≤ 5 * 1024 * 1024)%Z)
    as Hsize by (simpl; lia).
  assert (content_type (jpeg_upload []) ∈ allowed_types) as Htype
    by (apply (bool_decide_unpack _); by vm_compute).
  exact (@X5_preprocessing_error_masked no_other_blocks broken_converter (jpeg_upload [])
           () (Exception "image file is truncated") Hsize Htype eq_refl
           (or_introl eq_refl)).
Defined.

(** X2. When the upload passes both checks and every collaborator succeeds,
    the answer follows from the recognised text alone: a text that is white
    space only gives the failure "No text detected in image"; otherwise the
    call succeeds exactly when some value of the extracted record is a
    non-empty string, and fails with "No valid information could be
    extracted" when none is. *)
Theorem X2_answer_follows_text `{UnicodeData} `{Imaging}
    (file : UploadFile) (img gray enhanced : image) (text : str) :
  (Z.of_nat (List.length (file_content file)) ≤ 5 * 1024 * 1024)%Z →
  content_type file ∈ allowed_types →
  Image_open (file_content file) = Ok img →
  image_convert img "L" = Ok gray →
  contrast_enhance gray 2 = Ok enhanced →
  image_to_string enhanced "eng+hin" "--psm 3 --oem 3" = Ok text →
  extract_aadhaar_data file =
    match strip text with
    | [] =>
        (JSONResponse (Failure "Failed to process image" "No text detected in image") 500,
         full_run ++
         [Log "ERROR" ("Error processing " +:+ filename file +:+ ": No text detected in image")])
    | _ :: _ =>
        if any_values (extract_fields text)
        then (JSONResponse (Success (extract_fields text)
                              "Information extracted successfully") 200,
              full_run ++
              [Log "INFO" ("Successfully processed image: " +:+ filename file)])
        else (JSONResponse (Failure "Failed to process image"
                              "No valid information could be extracted") 500,
              full_run ++
              [Log "ERROR" ("Error processing " +:+ filename file +:+
                            ": No valid information could be extracted")])
    end.
Proof.
  intros Hsize Htype Hopen Hconv Henh Hocr. unfold extract_aadhaar_data, max_size.
  destruct (Z.gtb_spec (Z.of_nat (List.length (file_content file))) (5 * 1024 * 1024));
    [lia|].
  case_decide; [done|]. rewrite process_run, Hopen, Hconv, Henh, Hocr.
  destruct (strip text) as [|c tl]; [done|].
  by destruct (any_values (extract_fields text)).
Qed.

Lemma X2_answer_witness :
  @extract_aadhaar_data no_other_blocks (ocr_returning card_text) (jpeg_upload []) =
    match @strip no_other_blocks card_text with
    | [] =>
        (JSONResponse (Failure "Failed to process image" "No text detected in image") 500,
         full_run ++
         [Log "ERROR" ("Error processing " +:+ filename (jpeg_upload []) +:+
                       ": No text detected in image")])
    | _ :: _ =>
        if any_values (@extract_fields no_other_blocks card_text)
        then (JSONResponse (Success (@extract_fields no_other_blocks card_text)
                              "Information extracted successfully") 200,
              full_run ++
              [Log "INFO" ("Successfully processed image: " +:+ filename (jpeg_upload []))])
        else (JSONResponse (Failure "Failed to process image"
                              "No valid information could be extracted") 500,
              full_run ++
              [Log "ERROR" ("Error processing " +:+ filename (jpeg_upload []) +:+
                            ": No valid information could be extracted")])
    end.
Proof.
  assert ((Z.of_nat (List.length (file_content (jpeg_upload []))) ≤ 5 * 1024 * 1024)%Z)
    as Hsize by (simpl; lia).
  assert (content_type (jpeg_upload []) ∈ allowed_types) as Htype
    by (apply (bool_decide_unpack _); by vm_compute).
  exact (@X2_answer_follows_text no_other_blocks (ocr_returning card_text) (jpeg_upload [])
           () () () card_text Hsize Htype eq_refl eq_refl eq_refl eq_refl).
Defined.

(** * Further properties of the extraction *)

#[local] Set Warnings "-clear-no-such-hyp".

Section ExtractionExtras.
Context `{UnicodeData}.

Lemma dom_extract_field text d key pattern transform :
  dom (extract_field text d (key, (pattern, transform))) =
    dom d ∪ match re_search pattern text search_flags with
            | Some _ => {[key]}
            | None => ∅
            end.
Proof.
  unfold extract_field. destruct (re_search pattern text search_flags).
  - rewrite dom_insert_L. set_solver.
  - set_solver.
Qed.

Lemma dom_aadhaar_info_init :
  dom aadhaar_info_init = ({["aadhaar_number"; "name"; "dob"; "gender"]} : gset string)%string.
Proof.
  unfold aadhaar_info_init. rewrite !dom_insert_L, dom_empty_L. set_solver.
Qed.

Lemma record_keys_fields (text : str) :
  dom (extract_fields text) =
    ({["aadhaar_number"; "name"; "dob"; "gender"]} : gset string)%string ∪
    match re_search aadhaar_pattern text search_flags with
    | Some _ => {["aadhaar"%string]}
    | None => ∅
    end.
Proof.
  unfold extract_fields, patterns. cbn [foldl].
  rewrite !dom_extract_field, dom_aadhaar_info_init.
  destruct (re_search aadhaar_pattern text search_flags),
    (re_search name_pattern text search_flags),
    (re_search dob_pattern text search_flags),
    (re_search gender_pattern text search_flags); set_solver.
Qed.

Lemma record_keys (text : str) :
  dom (extract_aadhaar_info text).1 =
    ({["aadhaar_number"; "name"; "dob"; "gender"]} : gset string)%string ∪
    match re_search aadhaar_pattern text search_flags with
    | Some _ => {["aadhaar"%string]}
    | None => ∅
    end.
Proof.
  rewrite extract_aadhaar_info_unvalidated. simpl.
  unfold extract_fields, patterns. cbn [foldl].
  rewrite !dom_extract_field, dom_aadhaar_info_init.
  destruct (re_search aadhaar_pattern text search_flags),
    (re_search name_pattern text search_flags),
    (re_search dob_pattern text search_flags),
    (re_search gender_pattern text search_flags); set_solver.
Qed.

(** X7. The record always has the four keys aadhaar_number, name, dob and
    gender, and it has a fifth key, "aadhaar", exactly when the ID pattern
    matches somewhere in the text. *)
Theorem X7_record_keys (text : str) :
  dom (extract_aadhaar_info text).1 =
    ({["aadhaar_number"; "name"; "dob"; "gender"]} : gset string)%string ∪
    match re_search aadhaar_pattern text search_flags with
    | Some _ => {["aadhaar"%string]}
    | None => ∅
    end.
Proof.
  rewrite record_keys. by destruct (re_search aadhaar_pattern text search_flags).
Qed.

(** X8. The gender of the record is None or one of "Male", "Female" and
    "Transgender", whatever the text. *)
Theorem X8_gender_is_enumerated (text : str) :
  (extract_aadhaar_info text).1 !! "gender"%string = Some None ∨
  ∃ v, (extract_aadhaar_info text).1 !! "gender"%string = Some (Some v) ∧
       v ∈ gender_values.
Proof.
  rewrite extract_aadhaar_info_unvalidated. simpl. rewrite extract_fields_gender.
  unfold extracted. destruct (re_search gender_pattern text search_flags); [|by left].
  right. eexists. split; [done|]. apply gender_transform_values.
Qed.

Lemma atom_match_ascii_digit d :
  atom_match search_flags (AIn [CRange 48 57]) d = true → ascii_digit d = true.
Proof.
  unfold atom_match.
  replace (IGNORECASE search_flags && existsb item_cased [CRange 48 57])
    with false by (by vm_compute).
  simpl. by rewrite orb_false_r.
Qed.

Lemma atom_match_space fl w : atom_match fl space w = isspace w.
Proof. unfold atom_match, space. simpl. rewrite andb_false_r. simpl. apply orb_false_r. Qed.

Lemma replace_spaces_app s1 s2 :
  replace_spaces (s1 ++ s2) = replace_spaces s1 ++ replace_spaces s2.
Proof. unfold replace_spaces. induction s1 as [|c s1 IH]; simpl; [done|]. rewrite IH. by destruct (c =? 32). Qed.

Lemma replace_spaces_digits s :
  Forall (λ d, ascii_digit d = true) s → replace_spaces s = s.
Proof.
  unfold replace_spaces. induction 1 as [|d s Hd _ IH]; simpl; [done|].
  rewrite IH. apply between_spec in Hd as [? ?].
  by destruct (N.eqb_spec d 32); [lia|].
Qed.

Lemma replace_spaces_separator s :
  (List.length s ≤ 1)%nat → Forall (λ w, isspace w = true) s →
  kept_separator (replace_spaces s).
Proof.
  destruct s as [|w [|? ?]]; simpl; intros Hlen Hws; [by left | | lia].
  apply Forall_cons in Hws as [Hw _].
  destruct (N.eqb_spec w 32); simpl; [by left|]. right. eauto.
Qed.

Lemma length_3_inv {A} (l : list A) :
  (3 ≤ List.length l)%nat → (List.length l ≤ 3)%nat → ∃ a b c, l = [a; b; c].
Proof. destruct l as [|a [|b [|c [|]]]]; simpl; intros; try lia. eauto. Qed.

Lemma length_1_inv {A} (l : list A) :
  (1 ≤ List.length l)%nat → (List.length l ≤ 1)%nat → ∃ a, l = [a].
Proof. destruct l as [|a [|]]; simpl; intros; try lia. eauto. Qed.

(** A match of the ID pattern, in full: three groups of four ASCII digits,
    the first digit from 2 to 9, with at most one white-space character
    between neighbouring groups. *)
Lemma aadhaar_match_groups text m :
  re_search aadhaar_pattern text search_flags = Some m →
  ∃ d a b c t1 t2,
    group0 m = (d :: a) ++ t1 ++ b ++ t2 ++ c ∧
    between (chr "2") (chr "9") d = true ∧
    List.length a = 3%nat ∧ List.length b = 4%nat ∧ List.length c = 4%nat ∧
    Forall (λ x, ascii_digit x = true) (a ++ b ++ c) ∧
    (List.length t1 ≤ 1)%nat ∧ Forall (λ w, isspace w = true) t1 ∧
    (List.length t2 ≤ 1)%nat ∧ Forall (λ w, isspace w = true) t2.
Proof.
  intros Hs. destruct (re_search_sound _ _ _ Hs) as (pre & post & c' & Htext & M & Hpost & Hg).
  unfold aadhaar_pattern in M. inv_matches.
  repeat match goal with
  | Hh : ∀ h, Some ?n = Some h → _ |- _ => specialize (Hh n eq_refl)
  end.
  cbn [prev rest grp] in *.
  repeat match goal with
  | Hf : Forall (λ x, atom_match _ (AIn [CRange 48 57]) x = true) _ |- _ =>
      apply (Forall_impl _ (λ x, ascii_digit x = true)) in Hf;
        [|intros ?; apply atom_match_ascii_digit]
  | Hf : Forall (λ x, atom_match _ (AIn [CSpace]) x = true) _ |- _ =>
      apply (Forall_impl _ (λ w, isspace w = true)) in Hf;
        [|intros ?; change (AIn [CSpace]) with space; by rewrite atom_match_space]
  end.
  match goal with
  | Hf : Forall (λ x, atom_match _ (AIn [CRange 50 57]) x = true) ?l,
    H1 : (1 ≤ List.length ?l)%nat, H2 : (List.length ?l ≤ 1)%nat |- _ =>
      destruct (length_1_inv l H1 H2) as (d & ->); apply Forall_cons in Hf as [Hd _];
      apply atom_match_lead_digit in Hd
  end.
  match goal with
  | |- ∃ d a b c t1 t2, [] ++ [?d0] ++ ?a0 ++ ?s1 ++ ?b0 ++ ?s2 ++ ?c0 ++ [] ++ [] = _ ∧ _ =>
      exists d0, a0, b0, c0, s1, s2
  end.
  split; [by rewrite !app_nil_r|]. split; [done|].
  repeat split; try lia; try done.
  repeat (apply Forall_app; split); done.
Qed.

(** X9. The value stored for a match of the ID pattern is twelve ASCII
    digits in three groups of four, the first digit from 2 to 9; between
    neighbouring groups one white-space character may remain, and it is
    never the space: the transform removes spaces only, so a tab or a line
    feed between the groups stays in the value. *)
Theorem X9_id_value_shape (text v : str) :
  (extract_aadhaar_info text).1 !! "aadhaar"%string = Some (Some v) →
  ∃ d a b c s1 s2,
    v = (d :: a) ++ s1 ++ b ++ s2 ++ c ∧
    between (chr "2") (chr "9") d = true ∧
    List.length a = 3%nat ∧ List.length b = 4%nat ∧ List.length c = 4%nat ∧
    Forall (λ x, ascii_digit x = true) (a ++ b ++ c) ∧
    kept_separator s1 ∧ kept_separator s2.
Proof.
  rewrite extract_aadhaar_info_unvalidated. simpl. rewrite extract_fields_aadhaar.
  unfold extracted. destruct (re_search aadhaar_pattern text search_flags) as [m|] eqn:Hm;
    [|done].
  case_decide; [done|]. simpl. intros [= <-].
  destruct (aadhaar_match_groups _ _ Hm)
    as (d & a & b & c & t1 & t2 & -> & Hd & Ha & Hb & Hc & Hdig & Hl1 & Hw1 & Hl2 & Hw2).
  apply Forall_app in Hdig as [Hda Hdig]. apply Forall_app in Hdig as [Hdb Hdc].
  exists d, a, b, c, (replace_spaces t1), (replace_spaces t2).
  split.
  - rewrite !replace_spaces_app, (replace_spaces_digits (d :: a)),
      (replace_spaces_digits b), (replace_spaces_digits c); try done.
    constructor; [|done]. change (between 50 57 d = true) in Hd.
    apply between_spec in Hd as [? ?]. apply between_spec. lia.
  - repeat split; try done.
    + repeat (apply Forall_app; split); done.
    + by apply replace_spaces_separator.
    + by apply replace_spaces_separator.
Qed.

Lemma search_from_first fl r start pv s m :
  search_from fl r start pv s = Some m →
  ∃ pre tl,
    s = pre ++ tl ∧ m_start m = (start + List.length pre)%nat ∧
    match_at fl r (start + List.length pre) (last_char pv pre) tl = Some m ∧
    ∀ p1 p2, pre = p1 ++ p2 → p2 ≠ [] →
      match_at fl r (start + List.length p1) (last_char pv p1) (p2 ++ tl) = None.
Proof.
  assert (∀ start pv s m, match_at fl r start pv s = Some m → m_start m = start) as Hstart.
  { intros st p t m'. unfold match_at. destruct (mt fl r _); [done|]. by intros [= <-]. }
  revert start pv. induction s as [|x tl IH]; intros start pv; simpl.
  - destruct (match_at fl r start pv []) as [m'|] eqn:Hm; [|done].
    intros [= ->]. exists [], []. simpl. rewrite Nat.add_0_r.
    repeat split; [by apply Hstart in Hm | done |].
    intros p1 p2 Hp Hne. by destruct p1, p2.
  - destruct (match_at fl r start pv (x :: tl)) as [m'|] eqn:Hm.
    + intros [= ->]. exists [], (x :: tl). simpl. rewrite Nat.add_0_r.
      repeat split; [by apply Hstart in Hm | done |].
      intros p1 p2 Hp Hne. by destruct p1, p2.
    + intros Hs. destruct (IH _ _ Hs) as (pre & tl' & -> & Hst & Hat & Hmin).
      exists (x :: pre), tl'. rewrite last_char_cons. simpl.
      replace (start + S (List.length pre))%nat with (S start + List.length pre)%nat by lia.
      repeat split; [done | done |].
      intros [|y p1] p2 Hp Hne; simpl in Hp.
      * subst p2. simpl. by rewrite Nat.add_0_r.
      * injection Hp as <- ->. rewrite last_char_cons. simpl.
        replace (start + S (List.length p1))%nat with (S start + List.length p1)%nat by lia.
        by apply Hmin.
Qed.

(** X10. The first occurrence wins: the match [re.search] hands to the loop
    starts where the text splits around it, and the pattern matches at no
    earlier position of the text. *)
Theorem X10_first_occurrence_wins (pattern : re) (text : str) (m : match_obj) :
  re_search pattern text search_flags = Some m →
  ∃ pre post,
    text = pre ++ group0 m ++ post ∧ m_start m = List.length pre ∧
    ∀ p1 p2, pre = p1 ++ p2 → p2 ≠ [] →
      match_at search_flags pattern (List.length p1) (last p1) (p2 ++ group0 m ++ post)
        = None.
Proof.
  intros Hs. destruct (search_from_first _ _ _ _ _ _ Hs) as (pre & tl & -> & Hst & Hat & Hmin).
  destruct (match_at_sound _ _ _ _ _ _ Hat) as (c' & -> & _).
  exists pre, (rest c'). repeat split; [done|].
  intros p1 p2 Hp Hne. specialize (Hmin p1 p2 Hp Hne). simpl in Hmin.
  unfold last_char in Hmin. by destruct (last p1).
Qed.

Lemma replace_spaces_idemp s : replace_spaces (replace_spaces s) = replace_spaces s.
Proof.
  unfold replace_spaces. induction s as [|c s IH]; simpl; [done|].
  destruct (c =? 32) eqn:Hc; simpl; [done|]. by rewrite Hc, IH.
Qed.

Lemma validate_replace_spaces s :
  validate_aadhaar_number (replace_spaces s) = validate_aadhaar_number s.
Proof.
  unfold validate_aadhaar_number. destruct s as [|c s]; [done|].
  rewrite replace_spaces_idemp.
  destruct (replace_spaces (c :: s)) as [|c' s'] eqn:Hr; [by vm_compute|done].
Qed.

(** X11. The validator does not see spaces: two strings that are equal
    once their spaces are removed get the same verdict, wherever the spaces
    stood and however many there were. *)
Theorem X11_validator_ignores_spaces (s1 s2 : str) :
  replace_spaces s1 = replace_spaces s2 →
  validate_aadhaar_number s1 = validate_aadhaar_number s2.
Proof.
  intros Heq. by rewrite <- (validate_replace_spaces s1), Heq, validate_replace_spaces.
Qed.

Lemma extracted_None key pattern transform text :
  extracted key pattern transform text = None ↔
  re_search pattern text search_flags = None.
Proof. unfold extracted. by destruct (re_search pattern text search_flags). Qed.

(** X12. The record comes back exactly as it was initialised - the four
    fields None and no other key - if and only if none of the four patterns
    matches anywhere in the text; such a record holds no value that [any]
    counts. *)
Theorem X12_untouched_record (text : str) :
  ((extract_aadhaar_info text).1 = aadhaar_info_init ↔
   re_search aadhaar_pattern text search_flags = None ∧
   re_search name_pattern text search_flags = None ∧
   re_search dob_pattern text search_flags = None ∧
   re_search gender_pattern text search_flags = None) ∧
  any_values aadhaar_info_init = false.
Proof.
  split; [|by vm_compute].
  rewrite extract_aadhaar_info_unvalidated. simpl. split.
  - intros Heq.
    pose proof (extract_fields_aadhaar text) as Ha.
    pose proof (extract_fields_name text) as Hn.
    pose proof (extract_fields_dob text) as Hd.
    pose proof (extract_fields_gender text) as Hg.
    rewrite Heq in Ha, Hn, Hd, Hg.
    change (aadhaar_info_init !! "aadhaar"%string) with (@None (option str)) in Ha.
    change (aadhaar_info_init !! "name"%string) with (Some (@None str)) in Hn.
    change (aadhaar_info_init !! "dob"%string) with (Some (@None str)) in Hd.
    change (aadhaar_info_init !! "gender"%string) with (Some (@None str)) in Hg.
    split; [|split; [|split]].
    + apply (extracted_None "aadhaar" _ replace_spaces).
      by destruct (extracted "aadhaar" aadhaar_pattern replace_spaces text).
    + apply (extracted_None "name" _ strip). by injection Hn.
    + apply (extracted_None "dob" _ (λ x, x)). by injection Hd.
    + apply (extracted_None "gender" _ gender_transform). by injection Hg.
  - intros (Ha & Hn & Hd & Hg). unfold extract_fields, patterns. cbn [foldl].
    unfold extract_field. by rewrite Ha, Hn, Hd, Hg.
Qed.
End ExtractionExtras.

Lemma X9_id_value_witness :
  (@extract_aadhaar_info no_other_blocks tabbed_id).1 !! "aadhaar"%string
    = Some (Some tabbed_id) ∧
  ∃ d a b c s1 s2,
    tabbed_id = (d :: a) ++ s1 ++ b ++ s2 ++ c ∧
    between (chr "2") (chr "9") d = true ∧
    List.length a = 3%nat ∧ List.length b = 4%nat ∧ List.length c = 4%nat ∧
    Forall (λ x, ascii_digit x = true) (a ++ b ++ c) ∧
    @kept_separator no_other_blocks s1 ∧ @kept_separator no_other_blocks s2.
Proof.
  assert ((@extract_aadhaar_info no_other_blocks tabbed_id).1 !! "aadhaar"%string
            = Some (Some tabbed_id)) as Hv by (by vm_compute).
  split; [exact Hv|].
  exact (@X9_id_value_shape no_other_blocks _ _ Hv).
Defined.

Lemma X10_first_occurrence_witness :
  @re_search no_other_blocks dob_pattern two_dates search_flags
    = Some (Match 2 (py "01/02/2003") (Some (py "01/02/2003"))) ∧
  ∃ pre post,
    two_dates = pre ++ py "01/02/2003" ++ post ∧ 2%nat = List.length pre ∧
    ∀ p1 p2, pre = p1 ++ p2 → p2 ≠ [] →
      @match_at no_other_blocks search_flags dob_pattern (List.length p1) (last p1)
        (p2 ++ py "01/02/2003" ++ post) = None.
Proof.
  assert (@re_search no_other_blocks dob_pattern two_dates search_flags
            = Some (Match 2 (py "01/02/2003") (Some (py "01/02/2003")))) as Hm
    by (by vm_compute).
  split; [exact Hm|].
  exact (@X10_first_occurrence_wins no_other_blocks _ _ _ Hm).
Defined.

Lemma X11_validator_spaces_witness :
  replace_spaces (py "9876 5432 1098") = replace_spaces (py "987654321098") ∧
  @validate_aadhaar_number no_other_blocks (py "9876 5432 1098")
    = @validate_aadhaar_number no_other_blocks (py "987654321098").
Proof.
  assert (replace_spaces (py "9876 5432 1098") = replace_spaces (py "987654321098")) as Hs
    by (by vm_compute).
  split; [exact Hs|].
  exact (@X11_validator_ignores_spaces no_other_blocks _ _ Hs).
Defined.

(** * The health endpoint *)

(** X13. The health endpoint never answers "healthy": when tesseract is
    missing the answer carries its error, and when tesseract is there the
    timestamp cannot be built, because the module does not import
    [datetime]; either way the answer is "unhealthy" with status 500. *)
Theorem X13_health_never_healthy (get_tesseract_version : result string)
    (now_isoformat : string) :
  ∃ error,
    health_check get_tesseract_version now_isoformat
      = (HealthJSON "unhealthy" error 500,
         [Log "ERROR" ("Health check failed: " +:+ error)]) ∧
    match get_tesseract_version with
    | Ok _ => error = "name 'datetime' is not defined"%string
    | Raise e => error = str_e e
    end.
Proof.
  destruct get_tesseract_version as [version|e]; eexists; split; reflexivity.
Qed.

(** * The client *)

Section ClientExtras.
Context `{UnicodeData} `{Imaging}.
Variable format_mb : Z → string.

(** The client's check, read as the two conditions it tests. *)
Lemma validate_file_accepts (f : UploadedFile) :
  (validate_file format_mb (Some f)).1 = true ↔
  (Z.of_nat (List.length (uf_value f)) ≤ max_size)%Z ∧ uf_type f ∈ allowed_types.
Proof.
  unfold validate_file, MAX_FILE_SIZE, max_size, allowed_types.
  destruct (Z.gtb_spec (Z.of_nat (List.length (uf_value f))) (5 * 1024 * 1024)).
  - split; [done|]. intros [? _]. lia.
  - case_decide; simpl; (split; [intros Hv|intros [_ Ht]]); done.
Qed.

(** X14. The client's check and the server's two checks agree: the client
    accepts an uploaded file exactly when the server, given the same upload,
    does not raise an HTTPException. *)
Theorem X14_client_check_agrees (f : UploadedFile) :
  (validate_file format_mb (Some f)).1 = true ↔
  ∀ code detail, (extract_aadhaar_data (as_upload f)).1 ≠ HTTPException code detail.
Proof.
  rewrite validate_file_accepts.
  destruct (handler_response_cases (as_upload f))
    as [(detail & Hr & Hwhy) | (Hsize & Htype & Hr)]; simpl in *.
  - split; [|intros Hno; by destruct (Hno 400%Z detail)].
    intros [? ?]. destruct Hwhy as [?|?]; [lia|done].
  - split; [|done]. intros _ code detail.
    destruct Hr as [(data & -> & _) | (d & ->)]; done.
Qed.

(** X15. What the page shows for a record of the server: the Aadhaar
    number is always None, and a field that was not found is shown as None,
    not as "Not found" - all four keys are in every record, so the default
    of [data.get] is never used. *)
Theorem X15_page_shows_none (text : str) :
  display_extraction_results (extract_aadhaar_info text).1 =
    [StMarkdown "### Extracted Information";
     StMarkdown "**Aadhaar Number:**"; StWrite None;
     StMarkdown "**Name:**"; StWrite (extracted "name" name_pattern strip text);
     StMarkdown "**Date of Birth:**"; StWrite (extracted "dob" dob_pattern (λ x, x) text);
     StMarkdown "**Gender:**";
     StWrite (extracted "gender" gender_pattern gender_transform text)].
Proof.
  rewrite extract_aadhaar_info_unvalidated. unfold display_extraction_results, dict_get.
  simpl. by rewrite extract_fields_aadhaar_number, extract_fields_name,
    extract_fields_dob, extract_fields_gender.
Qed.

(** X16. A file the client's check rejects is never posted: the page shows
    the reason and stops, whatever the button, the network and the disk
    would do, and the CSV log is left as it was. *)
Theorem X16_rejected_file_not_posted (f : UploadedFile) (button : bool)
    (post : UploadFile → post_result) (disk : result unit) (csv : option (list csv_line)) :
  (validate_file format_mb (Some f)).1 = false →
  main format_mb (Some f) button post disk csv =
    ([StTitle "Aadhaar Card Info Extractor";
      StMarkdown "Upload an Aadhaar card image to extract information";
      StError (validate_file format_mb (Some f)).2], csv).
Proof.
  intros Hbad. unfold main.
  destruct (validate_file format_mb (Some f)) as [is_valid error_message].
  simpl in Hbad. by subst is_valid.
Qed.

(** X17. With this server at the other end, a click on a file the client
    accepts ends in one of two ways: the results are shown and the record is
    handed to the CSV log, or the page shows "Error: 500" with the body of
    the response.  "Error: 400" never appears, and neither does the branch
    for a 200 answer without success. *)
Theorem X17_click_outcomes (f : UploadedFile) (disk : result unit)
    (csv : option (list csv_line)) :
  (validate_file format_mb (Some f)).1 = true →
  main format_mb (Some f) true server disk csv =
    match (extract_aadhaar_data (as_upload f)).1 with
    | JSONResponse (Success data _) _ =>
        let '(saved, csv', errors) := save_to_csv data disk csv in
        ([StTitle "Aadhaar Card Info Extractor";
          StMarkdown "Upload an Aadhaar card image to extract information";
          StImage f; StSpinner "Processing image..."; Post (as_upload f);
          StSuccess "Information extracted successfully!"]
         ++ display_extraction_results data ++ errors
         ++ (if saved then [StInfo "Data saved successfully to CSV"] else []),
         csv')
    | r =>
        ([StTitle "Aadhaar Card Info Extractor";
          StMarkdown "Upload an Aadhaar card image to extract information";
          StImage f; StSpinner "Processing image..."; Post (as_upload f);
          StError "Error: 500"; StErrorText r], csv)
    end.
Proof.
  intros Hok. pose proof (proj1 (validate_file_accepts f) Hok) as [Hsize Htype].
  unfold main. destruct (validate_file format_mb (Some f)) as [is_valid error_message].
  simpl in Hok. subst is_valid. cbn [negb]. unfold on_extract, server.
  destruct (handler_response_cases (as_upload f))
    as [(detail & Hr & [?|?]) | (_ & _ & [(data & Hr & _) | (detail & Hr)])];
    simpl in *; [lia | done | |].
  - rewrite Hr. cbn [status_code_of]. case_decide; [|done].
    by destruct (save_to_csv data disk csv) as [[saved csv'] errors].
  - rewrite Hr. cbn [status_code_of]. case_decide; [done|]. reflexivity.
Qed.
End ClientExtras.

(** X18. The CSV log does not keep its columns: the header is written once,
    from the first record, and later records are appended without one.  So
    when the first card has no ID match and a later one has, the log is a
    header of four columns followed by a row of four cells and a row of
    five. *)
Theorem X18_csv_rows_outgrow_header `{UnicodeData} (text1 text2 : str) :
  re_search aadhaar_pattern text1 search_flags = None →
  is_Some (re_search aadhaar_pattern text2 search_flags) →
  let data1 := (extract_aadhaar_info text1).1 in
  let data2 := (extract_aadhaar_info text2).1 in
  (save_to_csv data2 (Ok ()) (save_to_csv data1 (Ok ()) None).1.2).1.2
    = Some [Header data1; Row data1; Row data2] ∧
  cells (Header data1) = 4%nat ∧ cells (Row data2) = 5%nat.
Proof.
  intros Hno [m Hm]. cbv zeta. split; [done|].
  unfold cells. rewrite <- !size_dom, !record_keys, Hno, Hm.
  split; by vm_compute.
Qed.

Lemma X16_rejected_file_witness :
  (validate_file (λ _, "0.00"%string) (Some gif_file)).1 = false ∧
  main (λ _, "0.00"%string) (Some gif_file) true
       (@server no_other_blocks (ocr_returning card_text)) (Ok ()) None =
    ([StTitle "Aadhaar Card Info Extractor";
      StMarkdown "Upload an Aadhaar card image to extract information";
      StError (validate_file (λ _, "0.00"%string) (Some gif_file)).2], None).
Proof.
  assert ((validate_file (λ _, "0.00"%string) (Some gif_file)).1 = false) as Hbad
    by (by vm_compute).
  split; [exact Hbad|].
  exact (X16_rejected_file_not_posted (λ _, "0.00"%string) gif_file true _ _ _ Hbad).
Defined.

Lemma X17_click_witness :
  (validate_file (λ _, "0.00"%string) (Some jpeg_file)).1 = true ∧
  main (λ _, "0.00"%string) (Some jpeg_file) true
       (@server no_other_blocks (ocr_returning card_text)) (Ok ()) None =
    match (@extract_aadhaar_data no_other_blocks (ocr_returning card_text)
             (as_upload jpeg_file)).1 with
    | JSONResponse (Success data _) _ =>
        let '(saved, csv', errors) := save_to_csv data (Ok ()) None in
        ([StTitle "Aadhaar Card Info Extractor";
          StMarkdown "Upload an Aadhaar card image to extract information";
          StImage jpeg_file; StSpinner "Processing image..."; Post (as_upload jpeg_file);
          StSuccess "Information extracted successfully!"]
         ++ display_extraction_results data ++ errors
         ++ (if saved then [StInfo "Data saved successfully to CSV"] else []),
         csv')
    | r =>
        ([StTitle "Aadhaar Card Info Extractor";
          StMarkdown "Upload an Aadhaar card image to extract information";
          StImage jpeg_file; StSpinner "Processing image..."; Post (as_upload jpeg_file);
          StError "Error: 500"; StErrorText r], None)
    end.
Proof.
  assert ((validate_file (λ _, "0.00"%string) (Some jpeg_file)).1 = true) as Hok
    by (by vm_compute).
  split; [exact Hok|].
  exact (@X17_click_outcomes no_other_blocks (ocr_returning card_text)
           (λ _, "0.00"%string) jpeg_file (Ok ()) None Hok).
Defined.

Lemma X18_csv_witness :
  (@re_search no_other_blocks aadhaar_pattern (py "Name: Asha Kumar") search_flags = None ∧
   is_Some (@re_search no_other_blocks aadhaar_pattern card_text search_flags)) ∧
  let data1 := (@extract_aadhaar_info no_other_blocks (py "Name: Asha Kumar")).1 in
  let data2 := (@extract_aadhaar_info no_other_blocks card_text).1 in
  (save_to_csv data2 (Ok ()) (save_to_csv data1 (Ok ()) None).1.2).1.2
    = Some [Header data1; Row data1; Row data2] ∧
  cells (Header data1) = 4%nat ∧ cells (Row data2) = 5%nat.
Proof.
  assert (@re_search no_other_blocks aadhaar_pattern (py "Name: Asha Kumar") search_flags
            = None) as Hno by (by vm_compute).
  assert (is_Some (@re_search no_other_blocks aadhaar_pattern card_text search_flags))
    as Hyes by (vm_compute; by eexists).
  split; [by split|].
  exact (@X18_csv_rows_outgrow_header no_other_blocks _ _ Hno Hyes).
Defined.

(** * What makes a call succeed *)

Section SuccessCriterion.
Context `{UnicodeData}.

Lemma any_values_spec (d : dict) :
  any_values d = true ↔ ∃ k c s, d !! k = Some (Some (c :: s)).
Proof.
  unfold any_values. rewrite existsb_exists. split.
  - intros (v & Hin & Hv). apply list_elem_of_In, list_elem_of_fmap in Hin as ([k v'] & -> & Hkv).
    apply elem_of_map_to_list in Hkv. simpl in Hv.
    destruct v' as [[|c s]|]; try done. eauto.
  - intros (k & c & s & Hk). exists (Some (c :: s)). split; [|done].
    apply list_elem_of_In, list_elem_of_fmap. exists (k, Some (c :: s)).
    split; [done|]. by apply elem_of_map_to_list.
Qed.

(** X19. The record holds a value that [any] counts exactly when the
    text has an ID number, a date or a gender token, or a name that is not
    empty after stripping: a name label alone does not always suffice. *)
Theorem X19_success_criterion (text : str) :
  any_values (extract_aadhaar_info text).1 = true ↔
  is_Some (re_search aadhaar_pattern text search_flags) ∨
  is_Some (re_search dob_pattern text search_flags) ∨
  is_Some (re_search gender_pattern text search_flags) ∨
  ∃ c s, (extract_aadhaar_info text).1 !! "name"%string = Some (Some (c :: s)).
Proof.
  rewrite any_values_spec. split.
  - intros (k & c & s & Hk).
    assert (k ∈ dom (extract_aadhaar_info text).1) as Hdom by (apply elem_of_dom; eauto).
    rewrite extract_aadhaar_info_unvalidated in *. simpl in *.
    rewrite record_keys_fields in Hdom.
    destruct (re_search aadhaar_pattern text search_flags) as [ma|] eqn:Ha; [by left; eauto|].
    right. assert (k = "aadhaar_number" ∨ k = "name" ∨ k = "dob" ∨ k = "gender")%string
      as [-> | [-> | [-> | ->]]] by set_solver.
    + by rewrite extract_fields_aadhaar_number in Hk.
    + right. right. eauto.
    + left. rewrite extract_fields_dob in Hk. unfold extracted in Hk.
      by destruct (re_search dob_pattern text search_flags); eauto.
    + right. left. rewrite extract_fields_gender in Hk. unfold extracted in Hk.
      by destruct (re_search gender_pattern text search_flags); eauto.
  - rewrite extract_aadhaar_info_unvalidated. simpl.
    intros [[m Hm]|[[m Hm]|[[m Hm]|(c & s & Hn)]]].
    + destruct (aadhaar_match_groups _ _ Hm) as (d & a & b & c & t1 & t2 & Hg & Hd & _).
      exists "aadhaar"%string. rewrite extract_fields_aadhaar. unfold extracted.
      rewrite Hm. case_decide; [done|]. simpl. rewrite Hg.
      change (between 50 57 d = true) in Hd. apply between_spec in Hd as [? ?].
      unfold replace_spaces. cbn [app List.filter].
      destruct (N.eqb_spec d 32); [lia|]. simpl. eauto.
    + destruct (dob_match_shape _ _ Hm) as (d & Hg & _ & s1 & s2 & _ & _ & Hshape).
      destruct Hshape as (d1 & d2 & d3 & d4 & d5 & d6 & d7 & d8 & -> & _).
      exists "dob"%string. rewrite extract_fields_dob. unfold extracted.
      rewrite Hm, Hg. case_decide; [|done]. simpl. eauto.
    + exists "gender"%string. rewrite extract_fields_gender. unfold extracted. rewrite Hm.
      pose proof (gender_transform_values
                    (if decide ("gender" ≠ "aadhaar")%string
                     then default [] (group1 m) else group0 m)) as Hv.
      unfold gender_values in Hv. apply list_elem_of_In in Hv. cbn [In] in Hv.
      destruct Hv as [<-|[<-|[<-|[]]]]; vm_compute; eauto.
    + eauto.
Qed.
End SuccessCriterion.

(** * The name stays on one line *)

Section LazyName.
Context `{UnicodeData}.

Lemma flat_map_head {A B} (f : A → list B) (L : list A) (y : B) (l : list B) :
  flat_map f L = y :: l →
  ∃ l1 x l2, L = l1 ++ x :: l2 ∧ Forall (λ z, f z = []) l1 ∧ ∃ l', f x = y :: l'.
Proof.
  induction L as [|x L IH]; simpl; [done|].
  destruct (f x) as [|y' l'] eqn:Hfx; simpl.
  - intros (l1 & x' & l2 & -> & Hall & Hx')%IH.
    exists (x :: l1), x', l2. split; [done|]. split; [by constructor | done].
  - intros [= -> <-]. exists [], x, L. split; [done|]. split; [constructor | eauto].
Qed.

(** The first result of a sequence: the first result of [r1] after which
    [r2] matches at all, followed by the first result of [r2] there. *)
Lemma mt_seq_first fl r1 r2 c c' l :
  mt fl (Seq r1 r2) c = c' :: l →
  ∃ l1 c1 l2, mt fl r1 c = l1 ++ c1 :: l2 ∧ Forall (λ z, mt fl r2 z = []) l1 ∧
              ∃ l', mt fl r2 c1 = c' :: l'.
Proof. simpl. apply flat_map_head. Qed.

Lemma mt_seq_head fl r1 r2 c c' l :
  mt fl (Seq r1 r2) c = c' :: l → ∃ c1 l', mt fl r2 c1 = c' :: l'.
Proof. intros (l1 & c1 & l2 & _ & _ & l' & Hx)%mt_seq_first. eauto. Qed.

(** The positions [spans] lists before a given one are the shorter runs. *)
Lemma spans_lookup_le p pv s g k c' j :
  spans p pv s g !! k = Some c' → (j ≤ k)%nat →
  spans p pv s g !! j = Some (Cursor (last_char pv (take j s)) (drop j s) g).
Proof.
  revert pv k j. induction s as [|x tl IH]; intros pv k j Hk Hj.
  - destruct k as [|k]; [|done]. by replace j with 0%nat by lia.
  - destruct j as [|j]; [done|]. destruct k as [|k]; [lia|]. simpl in Hk |- *.
    destruct (p x); [|done]. rewrite last_char_cons. apply (IH _ k); [done|lia].
Qed.

(** A position at which the lookahead of the name pattern fails is not
    followed by a line feed. *)
Lemma lookahead_fails_no_lf (x : re) (c : cursor) :
  mt search_flags (Seq (Look (Alt x (Alt (Atom (ALit 10)) Eol))) Empty) c = [] →
  head (rest c) ≠ Some 10.
Proof.
  intros Hfail Hlf. destruct (rest c) as [|y tl] eqn:Hr; [done|].
  injection Hlf as ->. cbn [mt flat_map] in Hfail.
  rewrite Hr in Hfail.
  replace (atom_match search_flags (ALit 10) 10) with true in Hfail by (by vm_compute).
  destruct (mt search_flags x c) as [|c0 l0]; simpl in Hfail; discriminate.
Qed.

(** In a match of the name pattern only the first character of group 1 can
    be a line feed: the lazy repetition stops at the first position where
    the lookahead holds, and a line feed ahead makes it hold. *)
Lemma name_group_one_line text m g :
  re_search name_pattern text search_flags = Some m → group1 m = Some g →
  ∀ j, (1 ≤ j)%nat → g !! j ≠ Some 10.
Proof.
  intros Hs Hg.
  destruct (search_from_first _ _ _ _ _ _ Hs) as (pre & tl & _ & _ & Hat & _).
  unfold match_at in Hat.
  destruct (mt search_flags name_pattern _) as [|c' l] eqn:Hmt; [done|].
  injection Hat as <-. simpl in Hg. unfold name_pattern in Hmt.
  apply mt_seq_head in Hmt as (c1 & l1 & Hmt).
  apply mt_seq_head in Hmt as (c2 & l2 & Hmt).
  apply mt_seq_head in Hmt as (c3 & l3 & Hmt).
  apply mt_seq_head in Hmt as (c4 & l4 & Hmt).
  apply mt_seq_first in Hmt as (k1 & cg & k2 & Hgroup & Hfail & l5 & Hlook).
  (* the final cursor holds what the group captured *)
  assert (grp c' = grp cg) as Hgrp.
  { match type of Hlook with mt _ ?r _ = _ =>
      destruct (mt_sound search_flags r cg c') as (t & M); [rewrite Hlook; by left|]
    end.
    by apply matches_groupless in M. }
  rewrite Hgrp in Hg. clear Hs Hlook Hgrp c' l5 l l4 l3 l2 l1.
  (* the group's results are the runs of one, two, ... characters *)
  cbn [mt upto] in Hgroup.
  set (runs := spans (atom_match search_flags (AIn [CRange 65 90; CRange 97 122; CSpace]))
              (prev c4) (rest c4) (grp c4)) in *.
  set (cap := λ c'0 : cursor,
         Cursor (prev c'0) (rest c'0) (Some (consumed (rest c4) c'0))) in *.
  assert (∃ x, runs !! S (List.length k1) = Some x ∧ cg = cap x) as (x & Hx & ->).
  { assert (map cap (drop 1 runs) !! List.length k1 = Some cg) as Hk.
    { rewrite Hgroup. by rewrite list_lookup_middle. }
    rewrite list_lookup_fmap, lookup_drop in Hk.
    destruct (runs !! (1 + List.length k1)%nat) as [x|] eqn:Hx; [|done].
    exists x. split; [done|]. by injection Hk. }
  destruct (spans_lookup _ _ _ _ _ _ Hx) as (taken & Hlen & Hrest & _ & _).
  simpl in Hg. rewrite Hrest, consumed_app in Hg. injection Hg as <-.
  intros j Hj Hlf.
  assert (j < List.length taken)%nat as Hjlt by (by apply lookup_lt_Some in Hlf).
  (* the run of j characters is an earlier result, at which the lookahead failed *)
  assert (map cap (drop 1 runs) !! (j - 1)%nat
          = Some (cap (Cursor (last_char (prev c4) (take j (rest c4))) (drop j (rest c4)) (grp c4))))
    as Hearlier.
  { rewrite list_lookup_fmap, lookup_drop.
    replace (1 + (j - 1))%nat with j by lia.
    pose proof (spans_lookup_le _ _ _ _ _ _ j Hx ltac:(lia)) as Hrun.
    fold runs in Hrun. by rewrite Hrun. }
  rewrite Hgroup, lookup_app_l in Hearlier by lia.
  apply (Forall_lookup_1 _ _ _ _ Hfail), lookahead_fails_no_lf in Hearlier.
  apply Hearlier. simpl. rewrite Hrest, drop_app_le by lia.
  rewrite <- (take_drop j taken) in Hlf at 1.
  rewrite lookup_app_r, length_take_le, Nat.sub_diag in Hlf by (rewrite ?length_take; lia).
  destruct (drop j taken) as [|y tl'] eqn:Hd; [done|]. simpl in *. congruence.
Qed.
End LazyName.

Section NameOneLine.
Context `{UnicodeData}.

Lemma strip_no_lf (g : str) :
  (∀ j, (1 ≤ j)%nat → g !! j ≠ Some 10) → 10 ∉ strip g.
Proof.
  intros Hg Hin. unfold strip in Hin.
  destruct (rstrip_prefix (lstrip g)) as [ws Hws].
  assert (10 ∈ lstrip g) as Hl by (rewrite Hws; apply elem_of_app; by left).
  clear Hin Hws. destruct g as [|c t]; [by apply not_elem_of_nil in Hl|].
  assert (10 ∉ t) as Ht.
  { intros (j & Hj)%list_elem_of_lookup. by apply (Hg (S j)); [lia|]. }
  simpl in Hl. destruct (isspace c) eqn:Hc.
  - destruct (lstrip_suffix t) as [ws' Hws']. apply Ht. rewrite Hws'.
    apply elem_of_app. by right.
  - apply elem_of_cons in Hl as [<-|Hl]; [|done]. by vm_compute in Hc.
Qed.

(** X20. The name never runs over a line: whenever name is present it
    holds no line feed. *)
Theorem X20_name_on_one_line (text n : str) :
  (extract_aadhaar_info text).1 !! "name"%string = Some (Some n) → 10 ∉ n.
Proof.
  intros (m & g & Hm & Hg & ->)%name_field.
  apply strip_no_lf. by apply (name_group_one_line text m).
Qed.
End NameOneLine.

Lemma X20_name_witness :
  (@extract_aadhaar_info no_other_blocks card_text).1 !! "name"%string
    = Some (Some (py "Asha Kumar")) ∧
  10 ∉ py "Asha Kumar".
Proof.
  assert ((@extract_aadhaar_info no_other_blocks card_text).1 !! "name"%string
            = Some (Some (py "Asha Kumar"))) as Hn by (by vm_compute).
  split; [exact Hn|].
  exact (@X20_name_on_one_line no_other_blocks _ _ Hn).
Defined.
